(** * Webcam motion detector

    A shallow embedding of [motion_detector.py] (class [MotionDetector]) and
    of [main.py] (function [main]), together with the properties of the
    recording state machine, of the motion estimate, of the artifact naming
    and of the start-up / shut-down paths.

    Python's mutable object [self] and the outside world (camera, output
    directory, video writers, windows, standard streams) are threaded
    explicitly through a small state-and-exception monad.  Python integers
    are unbounded and are modelled by [Z]; 8-bit image samples are integers
    in [0, 255]. *)

From Stdlib Require Import ZArith List String Ascii Bool Lia.
From Stdlib Require Import DecimalString DecimalNat.
From Stdlib.Strings Require Import Byte.
Import ListNotations.
Local Open Scope Z_scope.

(** ** Images and the OpenCV / NumPy primitives the detector calls *)

Module Cv.

(** One sample of a colour frame, in OpenCV's blue-green-red order; each
    channel is one byte. *)
Record Pixel := BGR { blue : byte; green : byte; red : byte }.

Definition channel (b : byte) : Z := Z.of_N (Byte.to_N b).

(** A frame is a grid of pixels, stored row by row. *)
Definition Frame := list (list Pixel).

(** A single-channel 8-bit image. *)
Definition Gray := list (list Z).

Definition shape {A : Type} (img : list (list A)) : list nat :=
  map (@List.length A) img.

Definition pixels {A : Type} (img : list (list A)) : list A :=
  List.concat img.

(** An image without a single sample ([Mat::empty()]). *)
Definition empty {A : Type} (img : list (list A)) : bool :=
  match pixels img with [] => true | _ :: _ => false end.

(** [cv::saturate_cast<uchar>]. *)
Definition saturate_u8 (v : Z) : Z := Z.max 0 (Z.min 255 v).

Fixpoint subtract_row (a b : list Z) : option (list Z) :=
  match a, b with
  | [], [] => Some []
  | x :: a', y :: b' =>
      option_map (cons (saturate_u8 (x - y))) (subtract_row a' b')
  | _, _ => None
  end.

(** [cv2.subtract a b] on two 8-bit images: the per-sample saturated
    difference; [None] stands for the [cv2.error] raised when the sizes
    of the two arguments do not match. *)
Fixpoint subtract (a b : Gray) : option Gray :=
  match a, b with
  | [], [] => Some []
  | r :: a', s :: b' =>
      match subtract_row r s, subtract a' b' with
      | Some d, Some ds => Some (d :: ds)
      | _, _ => None
      end
  | _, _ => None
  end.

Definition total (l : list Z) : Z := fold_right Z.add 0 l.

(** [np.sum] of an array of [uint8] accumulates in an unsigned 64-bit
    integer, so the mathematical total is reduced modulo [2^64]. *)
Definition uint64 (v : Z) : Z := v mod 2 ^ 64.

Definition np_sum (img : Gray) : Z := uint64 (total (pixels img)).

End Cv.

Import Cv.

(** ** Strings: the pieces of Python's [str] and [os.path] that are used *)

Module Py.

Local Open Scope string_scope.

(** [s.endswith(suffix)]. *)
Definition endswith (s suffix : string) : bool :=
  let n := String.length s in
  let m := String.length suffix in
  (m <=? n)%nat && String.eqb (substring (n - m) m s) suffix.

Definition startswith (s pre : string) : bool := String.prefix pre s.

(** [str(n)] for a non-negative integer. *)
Definition str_nat (n : nat) : string :=
  NilZero.string_of_uint (Nat.to_uint n).

(** [str(z)] for an integer. *)
Definition str_int (z : Z) : string :=
  NilZero.string_of_int (Z.to_int z).

Fixpoint zeros (n : nat) : string :=
  match n with O => "" | S n' => String "0" (zeros n') end.

(** [f"{n:04d}"] for a non-negative integer: decimal, padded on the left
    with zeros up to four characters, never truncated. *)
Definition format_04d (n : nat) : string :=
  let s := str_nat n in
  zeros (4 - String.length s) ++ s.

(** [os.path.join(a, b)] of [posixpath]. *)
Definition path_join (a b : string) : string :=
  if startswith b "/" then b
  else if (String.eqb a "" || endswith a "/")%bool then a ++ b
  else a ++ "/" ++ b.

End Py.

(** ** Exceptions, the detector object and the world around it *)

Inductive exn : Type :=
| RuntimeError (msg : string)
| KeyboardInterrupt
| OSError
| AttributeError
| CvError.

(** Everything the program does to the outside, in the order it happens. *)
Inductive Event : Type :=
| EvMakedirs (dir : string)
| EvCaptureOpen (camera : Z)
| EvCaptureRelease
| EvWriterOpen (filename : string) (fps : Z) (size : Z * Z)
| EvWriterWrite (filename : string) (frame : Frame)
| EvWriterRelease (filename : string)
| EvImshow (window : string) (status : option string)
| EvDestroyAllWindows
| EvStdout (line : string)
| EvStderr (line : string).

(** The part of the environment the program cannot change: what the camera
    and the keyboard will answer, call after call. *)
Record Script := {
  camera_opens : bool;               (* [VideoCapture(id).isOpened()] *)
  camera_size : Z * Z;               (* [CAP_PROP_FRAME_WIDTH], [_HEIGHT] *)
  camera_feed : nat -> option Frame; (* n-th [read()]: a frame, or failure *)
  key_feed : nat -> Z;               (* n-th [waitKey(1)] *)
  dir_creatable : bool               (* whether [os.makedirs] succeeds *)
}.

Record World := {
  script : Script;
  reads : nat;                 (* number of [read()] calls so far *)
  polls : nat;                 (* number of [waitKey] calls so far *)
  dir_exists : bool;           (* [os.path.exists(output_dir)] *)
  listing : list string;       (* [os.listdir(output_dir)] *)
  camera_held : bool;          (* the capture device is open *)
  open_writers : list string;  (* video writers not yet released *)
  log : list Event
}.

Record MotionDetector := {
  camera_id : Z;
  threshold : Z;
  record_buffer_frames : Z;
  output_dir : string;
  show_preview : bool;
  _video : option Z;           (* the capture object, named by its device *)
  _writer : option string;     (* the writer object, named by its target *)
  _frame_size : Z * Z;
  _last_frame : option Frame;
  _record_buffer : Z;
  _is_recording : bool
}.

Definition __init__ (camera_id threshold record_buffer_frames : Z)
    (output_dir : string) (show_preview : bool) : MotionDetector :=
  {| camera_id := camera_id;
     threshold := threshold;
     record_buffer_frames := record_buffer_frames;
     output_dir := output_dir;
     show_preview := show_preview;
     _video := None;
     _writer := None;
     _frame_size := (0, 0);
     _last_frame := None;
     _record_buffer := 0;
     _is_recording := false |}.

(** Field updates of [self]. *)
Definition set_video (v : option Z) (d : MotionDetector) : MotionDetector :=
  {| camera_id := camera_id d; threshold := threshold d;
     record_buffer_frames := record_buffer_frames d;
     output_dir := output_dir d; show_preview := show_preview d;
     _video := v; _writer := _writer d; _frame_size := _frame_size d;
     _last_frame := _last_frame d; _record_buffer := _record_buffer d;
     _is_recording := _is_recording d |}.

Definition set_writer (w : option string) (d : MotionDetector)
    : MotionDetector :=
  {| camera_id := camera_id d; threshold := threshold d;
     record_buffer_frames := record_buffer_frames d;
     output_dir := output_dir d; show_preview := show_preview d;
     _video := _video d; _writer := w; _frame_size := _frame_size d;
     _last_frame := _last_frame d; _record_buffer := _record_buffer d;
     _is_recording := _is_recording d |}.

Definition set_frame_size (s : Z * Z) (d : MotionDetector) : MotionDetector :=
  {| camera_id := camera_id d; threshold := threshold d;
     record_buffer_frames := record_buffer_frames d;
     output_dir := output_dir d; show_preview := show_preview d;
     _video := _video d; _writer := _writer d; _frame_size := s;
     _last_frame := _last_frame d; _record_buffer := _record_buffer d;
     _is_recording := _is_recording d |}.

Definition set_last_frame (f : option Frame) (d : MotionDetector)
    : MotionDetector :=
  {| camera_id := camera_id d; threshold := threshold d;
     record_buffer_frames := record_buffer_frames d;
     output_dir := output_dir d; show_preview := show_preview d;
     _video := _video d; _writer := _writer d; _frame_size := _frame_size d;
     _last_frame := f; _record_buffer := _record_buffer d;
     _is_recording := _is_recording d |}.

Definition set_record_buffer (n : Z) (d : MotionDetector) : MotionDetector :=
  {| camera_id := camera_id d; threshold := threshold d;
     record_buffer_frames := record_buffer_frames d;
     output_dir := output_dir d; show_preview := show_preview d;
     _video := _video d; _writer := _writer d; _frame_size := _frame_size d;
     _last_frame := _last_frame d; _record_buffer := n;
     _is_recording := _is_recording d |}.

Definition set_is_recording (b : bool) (d : MotionDetector) : MotionDetector :=
  {| camera_id := camera_id d; threshold := threshold d;
     record_buffer_frames := record_buffer_frames d;
     output_dir := output_dir d; show_preview := show_preview d;
     _video := _video d; _writer := _writer d; _frame_size := _frame_size d;
     _last_frame := _last_frame d; _record_buffer := _record_buffer d;
     _is_recording := b |}.

(** Updates of the world. *)
Definition emit (e : Event) (w : World) : World :=
  {| script := script w; reads := reads w; polls := polls w;
     dir_exists := dir_exists w; listing := listing w;
     camera_held := camera_held w; open_writers := open_writers w;
     log := log w ++ [e] |}.

Definition set_reads (n : nat) (w : World) : World :=
  {| script := script w; reads := n; polls := polls w;
     dir_exists := dir_exists w; listing := listing w;
     camera_held := camera_held w; open_writers := open_writers w;
     log := log w |}.

Definition set_polls (n : nat) (w : World) : World :=
  {| script := script w; reads := reads w; polls := n;
     dir_exists := dir_exists w; listing := listing w;
     camera_held := camera_held w; open_writers := open_writers w;
     log := log w |}.

Definition set_dir_exists (b : bool) (w : World) : World :=
  {| script := script w; reads := reads w; polls := polls w;
     dir_exists := b; listing := listing w;
     camera_held := camera_held w; open_writers := open_writers w;
     log := log w |}.

Definition set_listing (l : list string) (w : World) : World :=
  {| script := script w; reads := reads w; polls := polls w;
     dir_exists := dir_exists w; listing := l;
     camera_held := camera_held w; open_writers := open_writers w;
     log := log w |}.

Definition set_camera_held (b : bool) (w : World) : World :=
  {| script := script w; reads := reads w; polls := polls w;
     dir_exists := dir_exists w; listing := listing w;
     camera_held := b; open_writers := open_writers w;
     log := log w |}.

Definition set_open_writers (l : list string) (w : World) : World :=
  {| script := script w; reads := reads w; polls := polls w;
     dir_exists := dir_exists w; listing := listing w;
     camera_held := camera_held w; open_writers := l;
     log := log w |}.

(** The state a method runs in: the object and the world. *)
Record State := { self : MotionDetector; world : World }.

(** ** The monad: state that survives a raised exception *)

Inductive result (A : Type) : Type :=
| Ok (a : A)
| Raise (e : exn).
Arguments Ok {A} a.
Arguments Raise {A} e.

Definition M (A : Type) : Type := State -> result A * State.

Definition ret {A : Type} (a : A) : M A := fun st => (Ok a, st).

Definition bind {A B : Type} (c : M A) (k : A -> M B) : M B :=
  fun st =>
    match c st with
    | (Ok a, st') => k a st'
    | (Raise e, st') => (Raise e, st')
    end.

Definition raise {A : Type} (e : exn) : M A := fun st => (Raise e, st).

Definition get_self : M MotionDetector := fun st => (Ok (self st), st).

Definition get_world : M World := fun st => (Ok (world st), st).

Definition update_self (f : MotionDetector -> MotionDetector) : M unit :=
  fun st => (Ok tt, {| self := f (self st); world := world st |}).

Definition update_world (f : World -> World) : M unit :=
  fun st => (Ok tt, {| self := self st; world := f (world st) |}).

Declare Scope py_scope.
Delimit Scope py_scope with py.
Notation "x <- c ;; k" := (bind c (fun x => k))
  (at level 61, c at next level, right associativity) : py_scope.
Notation "c ;; k" := (bind c (fun _ => k))
  (at level 61, right associativity) : py_scope.
Notation "'when' b 'then' c" := (if b then c else ret tt)
  (at level 60, b at next level, c at next level) : py_scope.
Local Open Scope py_scope.

Definition print (line : string) : M unit := update_world (emit (EvStdout line)).

Definition print_err (line : string) : M unit :=
  update_world (emit (EvStderr line)).

(** ** The OpenCV calls that touch the world *)

(** An OpenCV call that may fail with [cv2.error]. *)
Definition cv {A : Type} (o : option A) : M A :=
  match o with Some a => ret a | None => raise CvError end.

(** [cv2.VideoCapture(camera)]: the object always exists; whether the
    device is open is up to the camera. *)
Definition VideoCapture (camera : Z) : M Z :=
  update_world (fun w =>
    emit (EvCaptureOpen camera) (set_camera_held (camera_opens (script w)) w)) ;;
  ret camera.

Definition isOpened : M bool := w <- get_world ;; ret (camera_held w).

(** [self._video.read()]: [None] is [ret = False].  Calling it on a detector
    that was never set up is an attribute access on [None]. *)
Definition video_read : M (option Frame) :=
  d <- get_self ;;
  match _video d with
  | None => raise AttributeError
  | Some _ =>
      w <- get_world ;;
      update_world (set_reads (S (reads w))) ;;
      ret (if camera_held w then camera_feed (script w) (reads w) else None)
  end.

Definition video_release : M unit :=
  update_world (fun w => emit EvCaptureRelease (set_camera_held false w)).

(** Last component of a path. *)
Fixpoint basename_from (acc p : string) : string :=
  match p with
  | EmptyString => acc
  | String c rest =>
      if Ascii.eqb c "/" then basename_from EmptyString rest
      else basename_from (acc ++ String c EmptyString) rest
  end.

Definition basename (p : string) : string := basename_from EmptyString p.

Definition add_entry (name : string) (l : list string) : list string :=
  if existsb (String.eqb name) l then l else l ++ [name].

(** [cv2.VideoWriter(filename, fourcc, fps, size)]: the target file comes
    into existence (or is truncated) and the writer stays open until it is
    released. *)
Definition VideoWriter (filename : string) (fps : Z) (size : Z * Z)
    : M string :=
  update_world (fun w =>
    emit (EvWriterOpen filename fps size)
      (set_open_writers (open_writers w ++ [filename])
         (set_listing (add_entry (basename filename) (listing w)) w))) ;;
  ret filename.

Fixpoint remove_first (name : string) (l : list string) : list string :=
  match l with
  | [] => []
  | x :: l' => if String.eqb name x then l' else x :: remove_first name l'
  end.

Definition writer_release (writer : string) : M unit :=
  update_world (fun w =>
    emit (EvWriterRelease writer)
      (set_open_writers (remove_first writer (open_writers w)) w)).

Definition writer_write (writer : string) (frame : Frame) : M unit :=
  update_world (emit (EvWriterWrite writer frame)).

Definition imshow (window : string) (status : option string) : M unit :=
  update_world (emit (EvImshow window status)).

Definition destroyAllWindows : M unit := update_world (emit EvDestroyAllWindows).

Definition waitKey : M Z :=
  w <- get_world ;;
  update_world (set_polls (S (polls w))) ;;
  ret (key_feed (script w) (polls w)).

(** [os.listdir(output_dir)]; a missing directory is an [OSError]. *)
Definition listdir : M (list string) :=
  w <- get_world ;;
  if dir_exists w then ret (listing w) else raise OSError.

Definition makedirs (dir : string) : M unit :=
  w <- get_world ;;
  if dir_creatable (script w)
  then update_world (fun w => emit (EvMakedirs dir) (set_dir_exists true w))
  else raise OSError.

(** ** The methods of [MotionDetector] *)

Section Detector.

(** [cv2.cvtColor(_, COLOR_BGR2GRAY)] works sample by sample; which luma
    weights OpenCV uses is left open. *)
Variable BGR2GRAY : Pixel -> Z.

(** [None] is the [cv2.error] raised on [None] and on an empty image. *)
Definition cvtColor (src : option Frame) : option Gray :=
  match src with
  | None => None
  | Some f => if empty f then None else Some (map (map BGR2GRAY) f)
  end.

Definition _ensure_output_dir : M unit :=
  d <- get_self ;;
  w <- get_world ;;
  when negb (dir_exists w) then makedirs (output_dir d).

Definition _setup : M unit :=
  _ensure_output_dir ;;
  d <- get_self ;;
  video <- VideoCapture (camera_id d) ;;
  update_self (set_video (Some video)) ;;
  opened <- isOpened ;;
  if negb opened
  then raise (RuntimeError ("Could not open camera " ++ Py.str_int (camera_id d)))
  else
    w <- get_world ;;
    update_self (set_frame_size (camera_size (script w))) ;;
    r <- video_read ;;
    match r with
    | None => raise (RuntimeError "Could not read from camera")
    | Some frame => update_self (set_last_frame (Some frame))
    end.

Definition _cleanup : M unit :=
  d <- get_self ;;
  match _video d with
  | Some _ => video_release ;; update_self (set_video None)
  | None => ret tt
  end ;;
  d <- get_self ;;
  match _writer d with
  | Some writer => writer_release writer ;; update_self (set_writer None)
  | None => ret tt
  end ;;
  destroyAllWindows.

Definition __enter__ : M unit := _setup.

Definition __exit__ : M unit := _cleanup.

Definition is_avi (f : string) : bool := Py.endswith f ".avi".

Definition _get_next_filename : M string :=
  d <- get_self ;;
  entries <- listdir ;;
  let existing := filter is_avi entries in
  ret (Py.path_join (output_dir d)
         ("recording_" ++ Py.format_04d (List.length existing) ++ ".avi")).

Definition _start_recording : M unit :=
  d <- get_self ;;
  match _writer d with
  | Some writer => writer_release writer
  | None => ret tt
  end ;;
  filename <- _get_next_filename ;;
  writer <- VideoWriter filename 30 (_frame_size d) ;;
  update_self (set_writer (Some writer)) ;;
  update_self (set_is_recording true) ;;
  print ("Recording started: " ++ filename).

Definition _stop_recording : M unit :=
  d <- get_self ;;
  match _writer d with
  | Some writer => writer_release writer ;; update_self (set_writer None)
  | None => ret tt
  end ;;
  update_self (set_is_recording false) ;;
  print "Recording stopped".

Definition _calculate_motion (frame : Frame) : M (Z * Gray) :=
  d <- get_self ;;
  gray_curr <- cv (cvtColor (Some frame)) ;;
  gray_last <- cv (cvtColor (_last_frame d)) ;;
  diff <- cv (subtract gray_curr gray_last) ;;
  let motion := np_sum diff in
  ret (motion, diff).

(** The overlay: only the status label is kept, the drawn timestamp and
    the pixels of the copy are not. *)
Definition _add_overlay (is_moving : bool) : string :=
  if is_moving then "REC - Moving" else "Standby".

Definition process_frame (frame : Frame) : M bool :=
  md <- _calculate_motion frame ;;
  let motion := fst md in
  d <- get_self ;;
  let motion_detected := motion >? threshold d in
  (if motion_detected
   then
     (when negb (_is_recording d) then _start_recording) ;;
     update_self (set_record_buffer (record_buffer_frames d))
   else
     update_self (set_record_buffer (_record_buffer d - 1)) ;;
     d <- get_self ;;
     when ((_record_buffer d <=? 0) && _is_recording d)%bool
     then _stop_recording) ;;
  d <- get_self ;;
  let is_moving := _record_buffer d >? 0 in
  match _writer d with
  | Some writer => when is_moving then writer_write writer frame
  | None => ret tt
  end ;;
  (when show_preview d
   then (imshow "Live" (Some (_add_overlay is_moving)) ;;
         imshow "Motion" None)) ;;
  update_self (set_last_frame (Some frame)) ;;
  ret motion_detected.

(** One turn of the [while True] loop of [run]: [true] to go round again,
    [false] for [break]. *)
Definition run_body : M bool :=
  r <- video_read ;;
  match r with
  | None => print "Error: Could not read frame" ;; ret false
  | Some frame =>
      process_frame frame ;;
      key <- waitKey ;;
      ret (negb (Z.land key 255 =? 113))
  end.

(** The loop, with fuel: [None] when the fuel runs out before the loop
    ends. *)
Fixpoint run_loop (fuel : nat) (st : State) : option (result unit * State) :=
  match fuel with
  | O => None
  | S fuel' =>
      match run_body st with
      | (Ok true, st') => run_loop fuel' st'
      | (Ok false, st') => Some (Ok tt, st')
      | (Raise e, st') => Some (Raise e, st')
      end
  end.

Definition run (fuel : nat) (st : State) : option (result unit * State) :=
  let d := self st in
  match (print ("Motion detection started (threshold="
                  ++ Py.str_int (threshold d) ++ ")") ;;
         print "Press 'q' to quit") st with
  | (Ok _, st1) =>
      match run_loop fuel st1 with
      | Some (Ok _, st2) => Some (print "Motion detection stopped" st2)
      | other => other
      end
  | (Raise e, st1) => Some (Raise e, st1)
  end.

End Detector.

(** ** [main.py] *)

(** What [parse_args] hands to [main]. *)
Record Namespace := {
  camera : Z;
  arg_threshold : Z;
  buffer : Z;
  output : string;
  no_preview : bool
}.

(** The defaults of the command line. *)
Definition default_args : Namespace :=
  {| camera := 0; arg_threshold := 200000; buffer := 15;
     output := "output_files"; no_preview := false |}.

(** The detector [main] builds from its arguments, in world [w]. *)
Definition boot (args : Namespace) (w : World) : State :=
  {| self := __init__ (camera args) (arg_threshold args) (buffer args)
                      (output args) (negb (no_preview args));
     world := w |}.

Section Main.

Variable BGR2GRAY : Pixel -> Z.

(** The two [except] clauses of [main]; any other exception leaves
    [main] uncaught. *)
Definition handle (e : exn) : M Z :=
  match e with
  | RuntimeError msg => print_err ("Error: " ++ msg) ;; ret 1
  | KeyboardInterrupt => print (String "010" "Interrupted by user") ;; ret 0
  | other => raise other
  end.

(** [with MotionDetector(...) as detector: detector.run()] inside the
    [try]: an exception out of [__enter__] skips [__exit__]; an exception
    out of the body runs [__exit__] and is raised again. *)
Definition main (args : Namespace) (fuel : nat) (w : World)
    : option (result Z * State) :=
  match __enter__ (boot args w) with
  | (Raise e, st1) => Some (handle e st1)
  | (Ok _, st1) =>
      match run BGR2GRAY fuel st1 with
      | None => None
      | Some (Ok _, st2) => Some ((__exit__ ;; ret 0) st2)
      | Some (Raise e, st2) => Some ((__exit__ ;; handle e) st2)
      end
  end.

(** [sys.exit(main())]: an uncaught exception ends the process with
    status 1. *)
Definition exit_status (r : result Z) : Z :=
  match r with Ok code => code | Raise _ => 1 end.

End Main.


(** ** Observing a run of [process_frame] calls *)

Definition is_write (e : Event) : bool :=
  match e with EvWriterWrite _ _ => true | _ => false end.

Definition is_open (e : Event) : bool :=
  match e with EvWriterOpen _ _ _ => true | _ => false end.

Definition is_release (e : Event) : bool :=
  match e with EvWriterRelease _ => true | _ => false end.

Definition count (p : Event -> bool) (l : list Event) : nat :=
  List.length (filter p l).

Definition frames_written (w : World) : nat := count is_write (log w).
Definition sessions_opened (w : World) : nat := count is_open (log w).
Definition sessions_closed (w : World) : nat := count is_release (log w).

(** What one call shows from outside: the score the estimator returned, the
    value [process_frame] returned, and whether the frame went to a
    writer. *)
Record Observation := {
  score : Z;
  detected : bool;
  wrote : bool
}.

Definition silent : Observation :=
  {| score := 0; detected := false; wrote := false |}.

Section Scripted.

Variable BGR2GRAY : Pixel -> Z.

(** Calling [process_frame] on each frame in turn, spying on
    [_calculate_motion] and on the writer. *)
Fixpoint process_frames (frames : list Frame) : M (list Observation) :=
  match frames with
  | [] => ret []
  | frame :: rest =>
      md <- _calculate_motion BGR2GRAY frame ;;
      before <- get_world ;;
      flag <- process_frame BGR2GRAY frame ;;
      after <- get_world ;;
      obs <- process_frames rest ;;
      ret ({| score := fst md; detected := flag;
              wrote := (frames_written before <? frames_written after)%nat |}
           :: obs)
  end.

End Scripted.

(** A controller that has been constructed and set up, and has not seen a
    frame since: threshold [T], hold-over [H], first frame [f0]. *)
Definition Fresh (T H : Z) (f0 : Frame) (st : State) : Prop :=
  threshold (self st) = T
  /\ record_buffer_frames (self st) = H
  /\ _last_frame (self st) = Some f0
  /\ _record_buffer (self st) = 0
  /\ _is_recording (self st) = false
  /\ _writer (self st) = None
  /\ dir_exists (world st) = true
  /\ open_writers (world st) = [].

(** The writer handle, the recording flag, the hold-over counter and the
    open writers of the world agree. *)
Definition Consistent (st : State) : Prop :=
  dir_exists (world st) = true
  /\ (_is_recording (self st) = true <-> _writer (self st) <> None)
  /\ (0 < _record_buffer (self st) -> _is_recording (self st) = true)
  /\ open_writers (world st)
     = match _writer (self st) with Some f => [f] | None => [] end.

(** ** Specification-side vocabulary *)

(** Sample-by-sample pairing of two images of the same shape. *)
Definition sample_pairs (a b : Gray) : list (Z * Z) :=
  combine (pixels a) (pixels b).

(** What the code accumulates: the part of [current - last] above zero. *)
Definition sum_positive_diff (current last : Gray) : Z :=
  total (map (fun xy => Z.max 0 (fst xy - snd xy)) (sample_pairs current last)).

(** What the specification describes: the absolute difference. *)
Definition sum_abs_diff (current last : Gray) : Z :=
  total (map (fun xy => Z.abs (fst xy - snd xy)) (sample_pairs current last)).

Definition is_u8 (v : Z) : Prop := 0 <= v <= 255.

(** ** A concrete luma, camera and world *)

(** The luma OpenCV computes for 8-bit images, in 15-bit fixed point. *)
Definition luma (p : Pixel) : Z :=
  Z.shiftr (channel (blue p) * 3735 + channel (green p) * 19235
            + channel (red p) * 9798 + 2 ^ 14) 15.

(** A neutral pixel of brightness [v], and a one-row frame of [n] of them. *)
Definition grey_pixel (v : byte) : Pixel := BGR v v v.

Definition flat (n : nat) (v : byte) : Frame := [repeat (grey_pixel v) n].

(** A camera that delivers the listed frames and then fails to read. *)
Definition feed_of (frames : list Frame) : nat -> option Frame :=
  fun n => nth_error frames n.

(** A world in which nothing has happened yet. *)
Definition initial_world (s : Script) (exists_dir : bool)
    (entries : list string) : World :=
  {| script := s; reads := 0; polls := 0; dir_exists := exists_dir;
     listing := entries; camera_held := false; open_writers := [];
     log := [] |}.

Definition quiet_camera (frames : list Frame) (keys : nat -> Z) : Script :=
  {| camera_opens := true; camera_size := (8, 1);
     camera_feed := feed_of frames; key_feed := keys;
     dir_creatable := true |}.

Definition no_key : nat -> Z := fun _ => -1.

(** The controller right after construction and [_setup], on a camera whose
    first frame is [f0], with an output directory ["out"] holding
    [entries]. *)
Definition state_on (T H : Z) (f0 : Frame) (entries : list string) : State :=
  snd (_setup {| self := __init__ 0 T H "out" false;
                 world := initial_world (quiet_camera [f0] no_key) true
                            entries |}).

(** ** Vocabulary of the statements *)

Definition one_if (b : bool) : nat := if b then 1%nat else 0%nat.

(** What one call of [process_frame] does to the controller, given the
    score [m] the estimator returned. *)
Record StepSpec (st : State) (frame : Frame) (m : Z) (st' : State) : Prop := {
  step_threshold : threshold (self st') = threshold (self st);
  step_hold_over :
    record_buffer_frames (self st') = record_buffer_frames (self st);
  step_last_frame : _last_frame (self st') = Some frame;
  step_video : _video (self st') = _video (self st);
  step_buffer :
    _record_buffer (self st')
    = if m >? threshold (self st) then record_buffer_frames (self st)
      else _record_buffer (self st) - 1;
  step_recording :
    _is_recording (self st')
    = if m >? threshold (self st) then true
      else if _record_buffer (self st) - 1 <=? 0 then false
      else _is_recording (self st);
  step_written :
    frames_written (world st')
    = Nat.add (frames_written (world st))
              (one_if (_record_buffer (self st') >? 0));
  step_opened :
    sessions_opened (world st')
    = Nat.add (sessions_opened (world st))
              (one_if ((m >? threshold (self st))
                       && negb (_is_recording (self st))));
  step_closed :
    sessions_closed (world st')
    = Nat.add (sessions_closed (world st))
              (one_if (negb (m >? threshold (self st))
                       && (_record_buffer (self st) - 1 <=? 0)
                       && _is_recording (self st)));
  step_consistent : Consistent st'
}.

(** The number a string of decimal digits stands for. *)
Definition decimal_value (s : string) : option nat :=
  option_map Nat.of_uint (NilEmpty.uint_of_string s).

(** Two listings that differ only by entries not ending in [.avi], put in
    or taken out at any place, any number of times. *)
Inductive differ_by_other_files : list string -> list string -> Prop :=
| differ_none (l : list string) : differ_by_other_files l l
| differ_added (before after : list string) (f : string) :
    Py.endswith f ".avi" = false ->
    differ_by_other_files (before ++ after) (before ++ f :: after)
| differ_removed (before after : list string) (f : string) :
    Py.endswith f ".avi" = false ->
    differ_by_other_files (before ++ f :: after) (before ++ after)
| differ_more (l1 l2 l3 : list string) :
    differ_by_other_files l1 l2 ->
    differ_by_other_files l2 l3 ->
    differ_by_other_files l1 l3.

(** The same state with another directory listing. *)
Definition with_listing (entries : list string) (st : State) : State :=
  {| self := self st; world := set_listing entries (world st) |}.

Definition is_capture_release (e : Event) : bool :=
  match e with EvCaptureRelease => true | _ => false end.

(** Index of the first event of a kind. *)
Fixpoint position (p : Event -> bool) (l : list Event) : option nat :=
  match l with
  | [] => None
  | e :: l' => if p e then Some 0%nat else option_map S (position p l')
  end.

(** The state once the two opening lines of [run] are printed. *)
Definition banner (st : State) : State :=
  {| self := self st;
     world :=
       emit (EvStdout "Press 'q' to quit")
         (emit (EvStdout ("Motion detection started (threshold="
                          ++ Py.str_int (threshold (self st)) ++ ")"))
               (world st)) |}.

Section Loop.

Variable BGR2GRAY : Pixel -> Z.

(** [n] turns of the loop, none of which breaks or raises. *)
Inductive iterates : nat -> State -> State -> Prop :=
| iterates_O (st : State) : iterates 0 st st
| iterates_S (n : nat) (st st1 st2 : State) :
    run_body BGR2GRAY st = (Ok true, st1) ->
    iterates n st1 st2 ->
    iterates (S n) st st2.

End Loop.

(** The directory step of [_setup], when the directory is there or can be
    made. *)
Definition dir_events (args : Namespace) (w : World) : list Event :=
  if dir_exists w then [] else [EvMakedirs (output args)].

(** ** Concrete inputs *)

Definition dark : Frame := flat 8 x00.
Definition bright : Frame := flat 8 xfa.

(** The script of the scenario: scores 0, 2000, 0, 0, 0. *)
Definition scenario : list Frame := [dark; bright; bright; bright; bright].

Definition fresh_1000_2 : State := state_on 1000 2 dark [].

(** A controller in the middle of a recording. *)
Definition mid_recording : State :=
  snd (process_frame luma bright fresh_1000_2).

(** A run in which [q] is pressed while a recording is in progress. *)
Definition quit_args : Namespace :=
  {| camera := 0; arg_threshold := 1000; buffer := 2; output := "out";
     no_preview := true |}.

Definition quit_world : World :=
  initial_world (quiet_camera [dark; bright; bright] (fun _ => 113)) false [].

Definition black : Frame := flat 1 x00.
Definition white : Frame := flat 1 xff.

(** A camera that delivers two frames and then fails, one that does not
    open, and one that opens but delivers nothing. *)
Definition failing_world : World :=
  initial_world (quiet_camera [dark; bright] no_key) false [].

Definition closed_world : World :=
  initial_world
    {| camera_opens := false; camera_size := (0, 0);
       camera_feed := feed_of []; key_feed := no_key;
       dir_creatable := true |} false [].

Definition blind_world : World :=
  initial_world (quiet_camera [] no_key) true [].

(** ** Further vocabulary *)

Definition is_imshow (e : Event) : bool :=
  match e with EvImshow _ _ => true | _ => false end.

Definition windows_shown (w : World) : nat := count is_imshow (log w).

(** The frames handed to writers, with the writer each one went to, in the
    order of the calls. *)
Definition written (l : list Event) : list (string * Frame) :=
  flat_map (fun e => match e with
                     | EvWriterWrite f frame => [(f, frame)]
                     | _ => []
                     end) l.

(** The number of places where a list of flags goes from [false] to
    [true], [previous] being the flag before the first. *)
Fixpoint rising_edges (previous : bool) (l : list bool) : nat :=
  match l with
  | [] => 0%nat
  | b :: l' => (one_if (negb previous && b) + rising_edges b l')%nat
  end.

(** The elements of [l] whose flag is set. *)
Fixpoint select {A : Type} (flags : list bool) (l : list A) : list A :=
  match flags, l with
  | b :: flags', x :: l' =>
      if b then x :: select flags' l' else select flags' l'
  | _, _ => []
  end.

(** Every session that was opened has been closed, except the one the
    detector holds a writer for. *)
Definition Balanced (st : State) : Prop :=
  sessions_opened (world st)
  = (sessions_closed (world st)
     + match _writer (self st) with Some _ => 1 | None => 0 end)%nat.

(** Nothing is left open: every session opened has been closed and the
    detector holds no writer. *)
Definition Settled (st : State) : Prop :=
  sessions_opened (world st) = sessions_closed (world st)
  /\ open_writers (world st) = []
  /\ _writer (self st) = None.

(** The file name the naming scheme gives to index [i]. *)
Definition scheme_name (i : nat) : string :=
  ("recording_" ++ Py.format_04d i ++ ".avi")%string.

Section Estimate.

Variable BGR2GRAY : Pixel -> Z.

(** The estimate as a function of the stored frame and the new one;
    [None] is [cv2.error]. *)
Definition estimate (last : option Frame) (frame : Frame)
    : option (Z * Gray) :=
  match cvtColor BGR2GRAY (Some frame) with
  | None => None
  | Some gray_curr =>
      match cvtColor BGR2GRAY last with
      | None => None
      | Some gray_last =>
          match subtract gray_curr gray_last with
          | None => None
          | Some diff => Some (np_sum diff, diff)
          end
      end
  end.

(** No sample of [current] is brighter, in gray, than the same sample of
    [last]. *)
Definition never_brighter (last current : Frame) : Prop :=
  Forall (fun xy => fst xy <= snd xy)
         (sample_pairs (map (map BGR2GRAY) current) (map (map BGR2GRAY) last)).

(** Each frame of the list is no brighter than the one before it, the
    first no brighter than [last]. *)
Fixpoint dimming (last : Frame) (frames : list Frame) : Prop :=
  match frames with
  | [] => True
  | frame :: rest =>
      shape frame = shape last /\ never_brighter last frame
      /\ dimming frame rest
  end.

End Estimate.

(** ** Further concrete inputs *)

(** A frame of another width than [dark] and [bright]. *)
Definition narrow : Frame := flat 4 xfa.

(** A camera whose second frame has another size than its first. *)
Definition glitch_world : World :=
  initial_world (quiet_camera [dark; narrow] no_key) false [].

(** A world whose output directory is missing and cannot be made. *)
Definition locked_world : World :=
  initial_world
    {| camera_opens := true; camera_size := (8, 1);
       camera_feed := feed_of [dark]; key_feed := no_key;
       dir_creatable := false |} false [].

(** A controller set up with the preview on. *)
Definition preview_on : State :=
  snd (_setup {| self := __init__ 0 1000 2 "out" true;
                 world := initial_world (quiet_camera [dark] no_key) true
                            [] |}).

(** A detector that was interrupted by [_cleanup] in the middle of a
    recording and is then set up a second time. *)
Definition reentered : State :=
  let w := initial_world (quiet_camera [dark; dark] no_key) true [] in
  let st1 := snd (_setup {| self := __init__ 0 1000 2 "out" false;
                            world := w |}) in
  let st2 := snd (process_frame luma bright st1) in
  let st3 := snd (_cleanup st2) in
  snd (_setup st3).

(** The state [main] is in when it enters the loop of [run]. *)
Definition at_loop (args : Namespace) (w : World) : State :=
  banner (snd (__enter__ (boot args w))).

(** ** Facts about images *)

Section ImageFacts.

Lemma saturate_u8_diff (x y : Z) :
  is_u8 x -> is_u8 y -> saturate_u8 (x - y) = Z.max 0 (x - y).
Proof. unfold is_u8, saturate_u8. lia. Qed.

Lemma subtract_row_some (a : list Z) :
  forall b, List.length a = List.length b ->
  subtract_row a b
  = Some (map (fun xy => saturate_u8 (fst xy - snd xy)) (combine a b)).
Proof.
  induction a as [|x a IH]; intros [|y b] Hlen; simpl in *;
    try discriminate; [reflexivity|].
  rewrite IH by congruence. reflexivity.
Qed.

Lemma subtract_row_none (a : list Z) :
  forall b, List.length a <> List.length b -> subtract_row a b = None.
Proof.
  induction a as [|x a IH]; intros [|y b] Hlen; simpl in *;
    try reflexivity; [congruence|].
  rewrite IH by congruence. reflexivity.
Qed.

Lemma subtract_some (a : Gray) :
  forall b, shape a = shape b ->
  exists d, subtract a b = Some d
    /\ pixels d
       = map (fun xy => saturate_u8 (fst xy - snd xy)) (sample_pairs a b)
    /\ shape d = shape a.
Proof.
  unfold sample_pairs, pixels, shape.
  induction a as [|r a IH]; intros [|s b] Hs; simpl in *; try discriminate.
  - exists []. repeat split.
  - injection Hs as Hr Hrest.
    destruct (IH b Hrest) as (ds & Hsub & Hpx & Hsh).
    rewrite (subtract_row_some r s Hr), Hsub.
    eexists. split; [reflexivity|]. simpl. split.
    + rewrite Hpx.
      assert (Hc : forall (l1 l2 : list Z) (m1 m2 : list Z),
                 List.length l1 = List.length l2 ->
                 combine (l1 ++ m1) (l2 ++ m2)
                 = combine l1 l2 ++ combine m1 m2).
      { induction l1 as [|u l1 IHl]; intros [|v l2] m1 m2 Hl;
          simpl in *; try discriminate; [reflexivity|].
        f_equal. apply IHl. congruence. }
      rewrite Hc by exact Hr. rewrite map_app. reflexivity.
    + rewrite length_map, length_combine, <- Hr, Nat.min_id, Hsh.
      reflexivity.
Qed.

Lemma subtract_none (a : Gray) :
  forall b, shape a <> shape b -> subtract a b = None.
Proof.
  unfold shape.
  induction a as [|r a IH]; intros [|s b] Hs; simpl in *;
    try reflexivity; [congruence|].
  destruct (Nat.eq_dec (List.length r) (List.length s)) as [Hr|Hr].
  - rewrite IH by congruence.
    destruct (subtract_row r s); reflexivity.
  - rewrite (subtract_row_none r s Hr). reflexivity.
Qed.

Lemma pixels_length {A : Type} (img : list (list A)) :
  List.length (pixels img) = list_sum (shape img).
Proof.
  unfold pixels, shape. induction img as [|r img IH]; simpl;
    [reflexivity|]. rewrite length_app, IH. reflexivity.
Qed.

Lemma empty_shape {A B : Type} (a : list (list A)) (b : list (list B)) :
  shape a = shape b -> empty a = empty b.
Proof.
  intros Hs. unfold empty.
  pose proof (pixels_length a) as Ha. pose proof (pixels_length b) as Hb.
  rewrite Hs in Ha.
  destruct (pixels a), (pixels b); simpl in *; congruence.
Qed.

Lemma shape_map {A B : Type} (f : A -> B) (img : list (list A)) :
  shape (map (map f) img) = shape img.
Proof.
  unfold shape. rewrite map_map. apply map_ext. intros r.
  apply length_map.
Qed.

Lemma pixels_map {A B : Type} (f : A -> B) (img : list (list A)) :
  pixels (map (map f) img) = map f (pixels img).
Proof.
  unfold pixels. induction img as [|r img IH]; simpl; [reflexivity|].
  rewrite map_app, IH. reflexivity.
Qed.

Lemma total_bounds (c : Z) (l : list Z) :
  0 <= c -> Forall (fun v => 0 <= v <= c) l ->
  0 <= total l <= c * Z.of_nat (List.length l).
Proof.
  intros Hc H. induction H as [|v l Hv _ IH]; simpl total; simpl List.length.
  - lia.
  - rewrite Nat2Z.inj_succ. lia.
Qed.

Lemma total_zero (l : list Z) :
  Forall (fun v => 0 <= v) l ->
  (total l = 0 <-> Forall (fun v => v = 0) l).
Proof.
  intros H. induction H as [|v l Hv Hl IH]; simpl.
  - split; constructor.
  - assert (0 <= total l).
    { clear IH. induction Hl; simpl; lia. }
    split.
    + intros Hz. constructor; [lia|]. apply IH. lia.
    + intros Hall. inversion Hall; subst. apply IH in H3. lia.
Qed.

Lemma uint64_small (v : Z) : 0 <= v < 2 ^ 64 -> uint64 v = v.
Proof. intros H. unfold uint64. apply Z.mod_small. exact H. Qed.

End ImageFacts.

(** ** The motion estimate *)

Section MotionEstimate.

Variable BGR2GRAY : Pixel -> Z.
Hypothesis BGR2GRAY_u8 : forall p, is_u8 (BGR2GRAY p).

Local Abbreviation grayscale := (map (map BGR2GRAY)).

Lemma cvtColor_some (f : Frame) :
  empty f = false -> cvtColor BGR2GRAY (Some f) = Some (grayscale f).
Proof. intros H. unfold cvtColor. rewrite H. reflexivity. Qed.

(** With a stored frame of the same shape the estimate is returned, the
    state is left alone, and the score is [np.sum] of [cv2.subtract]. *)
Lemma calculate_motion_returns (st : State) (last frame : Frame) :
  _last_frame (self st) = Some last ->
  shape frame = shape last ->
  empty frame = false ->
  exists diff,
    subtract (grayscale frame) (grayscale last) = Some diff
    /\ _calculate_motion BGR2GRAY frame st = (Ok (np_sum diff, diff), st).
Proof.
  intros Hlast Hshape Hne.
  assert (Hne' : empty last = false)
    by (rewrite <- (empty_shape frame last Hshape); exact Hne).
  destruct (subtract_some (grayscale frame) (grayscale last)) as (d & Hd & _).
  { rewrite !shape_map. exact Hshape. }
  exists d. split; [exact Hd|].
  unfold _calculate_motion, bind, get_self, cv, ret. cbv beta iota.
  rewrite (cvtColor_some frame Hne). cbv beta iota.
  rewrite Hlast, (cvtColor_some last Hne'). cbv beta iota.
  rewrite Hd. reflexivity.
Qed.

Lemma gray_pairs_u8 (frame last : Frame) :
  Forall (fun xy => is_u8 (fst xy) /\ is_u8 (snd xy))
         (sample_pairs (grayscale frame) (grayscale last)).
Proof.
  unfold sample_pairs. rewrite !pixels_map.
  generalize (pixels frame) (pixels last).
  induction l as [|p l IH]; intros [|q l0]; simpl; constructor.
  - simpl. split; apply BGR2GRAY_u8.
  - apply IH.
Qed.

Lemma diff_pixels (frame last : Frame) (diff : Gray) :
  shape frame = shape last ->
  subtract (grayscale frame) (grayscale last) = Some diff ->
  pixels diff
  = map (fun xy => Z.max 0 (fst xy - snd xy))
        (sample_pairs (grayscale frame) (grayscale last))
  /\ List.length (pixels diff) = List.length (pixels frame).
Proof.
  intros Hshape Hd.
  destruct (subtract_some (grayscale frame) (grayscale last))
    as (d & Hd' & Hpx & Hsh).
  { rewrite !shape_map. exact Hshape. }
  rewrite Hd in Hd'. injection Hd' as <-. split.
  - rewrite Hpx. apply map_ext_Forall.
    eapply Forall_impl; [|apply gray_pairs_u8].
    intros [x y] [Hx Hy]. simpl in *. apply saturate_u8_diff; assumption.
  - rewrite !pixels_length, Hsh, shape_map. reflexivity.
Qed.

(** C1, as the code has it: the score is the sum, over all samples, of
    the saturated difference [max 0 (current - last)] of the two
    grayscale images (not of the absolute difference); so it is zero
    exactly when no sample of the current image is brighter than the
    same sample of the last one, in particular when the two grayscale
    images are identical, and it is never negative. *)
Theorem calculate_motion_saturated_sum (st : State) (last frame : Frame) :
  _last_frame (self st) = Some last ->
  shape frame = shape last ->
  empty frame = false ->
  255 * Z.of_nat (List.length (pixels frame)) < 2 ^ 64 ->
  exists diff,
    let motion := sum_positive_diff (grayscale frame) (grayscale last) in
    _calculate_motion BGR2GRAY frame st = (Ok (motion, diff), st)
    /\ 0 <= motion
    /\ (motion = 0 <->
        Forall (fun xy => fst xy <= snd xy)
               (sample_pairs (grayscale frame) (grayscale last)))
    /\ (grayscale frame = grayscale last -> motion = 0).
Proof.
  intros Hlast Hshape Hne Hsize.
  destruct (calculate_motion_returns st last frame Hlast Hshape Hne)
    as (diff & Hd & Hrun).
  destruct (diff_pixels frame last diff Hshape Hd) as [Hpx Hlen].
  exists diff. cbv zeta.
  assert (Hrange : Forall (fun v => 0 <= v <= 255) (pixels diff)).
  { rewrite Hpx. apply Forall_map.
    eapply Forall_impl; [|apply gray_pairs_u8].
    intros [x y] [Hx Hy]. unfold is_u8 in *. simpl in *. lia. }
  assert (Hsum : np_sum diff
                 = sum_positive_diff (grayscale frame) (grayscale last)).
  { unfold np_sum, sum_positive_diff. rewrite <- Hpx.
    apply uint64_small.
    pose proof (total_bounds 255 (pixels diff) ltac:(lia) Hrange).
    rewrite Hlen in H. lia. }
  assert (Hzero : sum_positive_diff (grayscale frame) (grayscale last) = 0
                  <-> Forall (fun xy => fst xy <= snd xy)
                        (sample_pairs (grayscale frame) (grayscale last))).
  { unfold sum_positive_diff. rewrite total_zero.
    - rewrite Forall_map.
      split; intros Hall; eapply Forall_impl; try exact Hall;
        intros [x y]; simpl; lia.
    - apply Forall_map. apply Forall_forall. intros [x y] _. simpl. lia. }
  split; [rewrite <- Hsum; exact Hrun|]. split.
  - unfold sum_positive_diff. rewrite <- Hpx.
    apply (total_bounds 255 (pixels diff) ltac:(lia) Hrange).
  - split; [exact Hzero|].
    intros Heq. apply Hzero. rewrite Heq. unfold sample_pairs.
    generalize (pixels (grayscale last)).
    induction l as [|v l IH]; simpl; constructor; [simpl; lia|exact IH].
Qed.

End MotionEstimate.

Lemma channel_u8 (b : byte) : is_u8 (channel b).
Proof.
  unfold is_u8, channel. pose proof (Byte.to_N_bounded b). lia.
Qed.

Lemma luma_u8 (p : Pixel) : is_u8 (luma p).
Proof.
  pose proof (channel_u8 (blue p)) as Hb.
  pose proof (channel_u8 (green p)) as Hg.
  pose proof (channel_u8 (red p)) as Hr.
  unfold is_u8, luma in *. rewrite Z.shiftr_div_pow2 by lia.
  change (2 ^ 15) with 32768. change (2 ^ 14) with 16384.
  split.
  - apply Z.div_pos; lia.
  - apply Z.lt_succ_r. apply Z.div_lt_upper_bound; lia.
Qed.

(** ** The recording controller *)

Lemma count_app (p : Event -> bool) (l1 l2 : list Event) :
  count p (l1 ++ l2) = (count p l1 + count p l2)%nat.
Proof. unfold count. rewrite filter_app, length_app. reflexivity. Qed.

Lemma count_one (p : Event -> bool) (e : Event) :
  count p [e] = if p e then 1%nat else 0%nat.
Proof. unfold count. simpl. destruct (p e); reflexivity. Qed.


Ltac unfold_methods :=
  unfold process_frame, _start_recording, _stop_recording,
    _get_next_filename, _cleanup, _setup, _ensure_output_dir,
    listdir, makedirs, VideoWriter, VideoCapture, isOpened, video_read,
    video_release, writer_release, writer_write, imshow, destroyAllWindows,
    waitKey, print, print_err.

Ltac unfold_monad :=
  unfold bind, ret, raise, get_self, get_world, update_self, update_world.

Ltac count_events :=
  unfold frames_written, sessions_opened, sessions_closed, one_if; simpl;
  rewrite ?count_app, ?count_one; simpl.

Section Controller.

Variable BGR2GRAY : Pixel -> Z.

(** Opening and closing a session keep the recording flag and the writer
    handle in step, with at most one writer open. *)
Lemma start_recording_flag (st : State) :
  dir_exists (world st) = true ->
  open_writers (world st)
  = match _writer (self st) with Some f => [f] | None => [] end ->
  exists st' f,
    _start_recording st = (Ok tt, st')
    /\ _is_recording (self st') = true
    /\ _writer (self st') = Some f
    /\ open_writers (world st') = [f].
Proof.
  intros Hdir Hopen. destruct st as [d w]. simpl in *.
  unfold_methods. unfold_monad. simpl.
  destruct (_writer d) as [f|] eqn:Hw; simpl; rewrite Hdir; simpl;
    rewrite ?Hopen; simpl; rewrite ?String.eqb_refl; simpl;
    eexists; eexists; repeat split; reflexivity.
Qed.

Lemma stop_recording_flag (st : State) :
  open_writers (world st)
  = match _writer (self st) with Some f => [f] | None => [] end ->
  exists st',
    _stop_recording st = (Ok tt, st')
    /\ _is_recording (self st') = false
    /\ _writer (self st') = None
    /\ open_writers (world st') = [].
Proof.
  intros Hopen. destruct st as [d w]. simpl in *.
  unfold_methods. unfold_monad. simpl.
  destruct (_writer d) as [f|] eqn:Hw; simpl; rewrite ?Hopen; simpl;
    rewrite ?String.eqb_refl; eexists; repeat split; simpl;
    rewrite ?Hw; try reflexivity; exact Hopen.
Qed.

Lemma process_frame_step (st : State) (frame : Frame) (m : Z) (diff : Gray) :
  _calculate_motion BGR2GRAY frame st = (Ok (m, diff), st) ->
  Consistent st ->
  exists st',
    process_frame BGR2GRAY frame st = (Ok (m >? threshold (self st)), st')
    /\ StepSpec st frame m st'.
Proof.
  intros Hcalc (Hdir & Hrec & Hbuf & Hopen).
  unfold process_frame. unfold bind at 1. rewrite Hcalc.
  destruct st as [d w]. simpl in *.
  unfold_methods. unfold_monad. simpl.
  destruct (m >? threshold d) eqn:Hm; simpl.
  - destruct (_is_recording d) eqn:Hr; simpl.
    + destruct (_writer d) as [f|] eqn:Hw;
        [|exfalso; apply Hrec; reflexivity].
      destruct (record_buffer_frames d >? 0) eqn:HH;
        destruct (show_preview d); simpl;
        (eexists; split; [reflexivity|]);
        (constructor; simpl; rewrite ?Hm, ?Hr, ?HH, ?Hw; simpl;
         try reflexivity; try (count_events; lia)).
      all: unfold Consistent; simpl; rewrite ?Hw, ?Hr; repeat split;
        try assumption; try congruence.
    + destruct (_writer d) as [f|] eqn:Hw;
        [assert (false = true) by (apply Hrec; discriminate);
         discriminate|].
      simpl. rewrite Hdir. simpl.
      destruct (record_buffer_frames d >? 0) eqn:HH;
        destruct (show_preview d); simpl;
        (eexists; split; [reflexivity|]);
        (constructor; simpl; rewrite ?Hm, ?Hr, ?HH, ?Hw; simpl;
         try reflexivity; try (count_events; lia)).
      all: unfold Consistent; simpl; rewrite ?Hw, ?Hr, ?Hopen;
        repeat split; try assumption; try congruence.
  - destruct (_record_buffer d - 1 <=? 0) eqn:Hb; simpl.
    + assert (Hg : (_record_buffer d - 1 >? 0) = false).
      { rewrite Z.gtb_ltb. apply Z.ltb_ge. apply Z.leb_le in Hb. lia. }
      assert (Hb' : _record_buffer d - 1 <= 0) by (apply Z.leb_le; exact Hb).
      destruct (_is_recording d) eqn:Hr; simpl.
      * destruct (_writer d) as [f|] eqn:Hw;
          [|exfalso; apply Hrec; reflexivity].
        simpl. rewrite ?Hg.
        destruct (show_preview d); simpl;
          (eexists; split; [reflexivity|]);
          (constructor; simpl; rewrite ?Hm, ?Hr, ?Hb, ?Hg, ?Hw; simpl;
           try reflexivity; try (count_events; lia)).
        all: unfold Consistent; simpl; rewrite ?Hopen; simpl;
          rewrite ?String.eqb_refl; repeat split;
          try assumption; try congruence; intros; lia.
      * destruct (_writer d) as [f|] eqn:Hw;
          [assert (false = true) by (apply Hrec; discriminate);
           discriminate|].
        simpl.
        destruct (show_preview d); simpl;
          (eexists; split; [reflexivity|]);
          (constructor; simpl; rewrite ?Hm, ?Hr, ?Hb, ?Hg, ?Hw; simpl;
           try reflexivity; try (count_events; lia)).
        all: unfold Consistent; simpl; rewrite ?Hopen, ?Hw, ?Hr; simpl;
          repeat split; try assumption; try congruence; intros; lia.
    + assert (Hg : (_record_buffer d - 1 >? 0) = true).
      { rewrite Z.gtb_ltb. apply Z.ltb_lt. apply Z.leb_gt in Hb. lia. }
      assert (Hb' : 0 < _record_buffer d) by (apply Z.leb_gt in Hb; lia).
      pose proof (Hbuf Hb') as Hr.
      destruct (_writer d) as [f|] eqn:Hw;
        [|exfalso; apply Hrec; [exact Hr|reflexivity]].
      simpl. rewrite ?Hg.
      destruct (show_preview d); simpl;
        (eexists; split; [reflexivity|]);
        (constructor; simpl; rewrite ?Hm, ?Hr, ?Hb, ?Hg, ?Hw; simpl;
         try reflexivity; try (count_events; lia)).
      all: unfold Consistent; simpl; rewrite ?Hopen, ?Hw, ?Hr; simpl;
        repeat split; try assumption; try congruence.
Qed.

(** Whatever state the controller is in, as long as the output directory
    is there the call returns the strict comparison. *)
Lemma process_frame_returns (st : State) (frame : Frame) (m : Z)
    (diff : Gray) :
  _calculate_motion BGR2GRAY frame st = (Ok (m, diff), st) ->
  dir_exists (world st) = true ->
  exists st',
    process_frame BGR2GRAY frame st = (Ok (m >? threshold (self st)), st').
Proof.
  intros Hcalc Hdir.
  unfold process_frame. unfold bind at 1. rewrite Hcalc.
  destruct st as [d w]. simpl in *.
  unfold_methods. unfold_monad. simpl.
  destruct (m >? threshold d), (_is_recording d);
    destruct (_writer d) as [f|] eqn:Hw;
    destruct (show_preview d);
    repeat (simpl; rewrite ?Hw, ?Hdir; simpl;
            try match goal with
                | |- context [if ?b then _ else _] => destruct b
                end);
    try discriminate; eexists; reflexivity.
Qed.

Lemma motion_or_none (s : nat -> Z) (T : Z) (n : nat) :
  (forall j, (j <= n)%nat -> s j <= T)
  \/ (exists j, (j <= n)%nat /\ s j > T).
Proof.
  induction n as [|n [IH|(j & Hj & Hs)]].
  - destruct (Z_le_gt_dec (s 0%nat) T) as [H|H].
    + left. intros j Hj. replace j with 0%nat by lia. exact H.
    + right. exists 0%nat. split; [lia|exact H].
  - destruct (Z_le_gt_dec (s (S n)) T) as [H|H].
    + left. intros j Hj.
      destruct (Nat.eq_dec j (S n)) as [->|Hne]; [exact H|].
      apply IH. lia.
    + right. exists (S n). split; [lia|exact H].
  - right. exists j. split; [lia|exact Hs].
Qed.

(** The run of a whole script, from any consistent state: the frame of
    step [i] is written exactly when a score above the threshold lies at
    most [H - 1] steps back, or when no score so far was above it and the
    counter the run started with has not yet run down. *)
Lemma process_frames_run (frames : list Frame) :
  forall (st : State) (last : Frame),
  Consistent st ->
  _last_frame (self st) = Some last ->
  empty last = false ->
  Forall (fun f => shape f = shape last) frames ->
  exists obs st',
    process_frames BGR2GRAY frames st = (Ok obs, st')
    /\ List.length obs = List.length frames
    /\ Consistent st'
    /\ forall i, (i < List.length frames)%nat ->
       (wrote (nth i obs silent) = true <->
        (exists j, (j <= i)%nat
                   /\ score (nth j obs silent) > threshold (self st)
                   /\ Z.of_nat (i - j) < record_buffer_frames (self st))
        \/ ((forall j, (j <= i)%nat ->
                       score (nth j obs silent) <= threshold (self st))
            /\ 0 < _record_buffer (self st) - Z.of_nat (S i))).
Proof.
  induction frames as [|frame rest IH]; intros st last Hcons Hlast Hne Hall.
  - exists [], st. split; [reflexivity|]. split; [reflexivity|].
    split; [exact Hcons|]. intros i Hi. simpl in Hi. lia.
  - inversion Hall as [|? ? Hshape Hrest]; subst.
    assert (Hne' : empty frame = false)
      by (rewrite (empty_shape frame last Hshape); exact Hne).
    destruct (calculate_motion_returns BGR2GRAY st last frame
                Hlast Hshape Hne') as (diff & _ & Hcalc).
    destruct (process_frame_step st frame _ diff Hcalc Hcons)
      as (st1 & Hstep & Hspec).
    destruct Hspec as [HT HH Hlf _ Hb _ Hwr _ _ Hcons1].
    destruct (IH st1 frame Hcons1 Hlf Hne') as (obs & st2 & Hrun & Hlen & Hc2 & Hobs).
    { eapply Forall_impl; [|exact Hrest]. simpl. intros f Hf. congruence. }
    simpl process_frames. unfold bind at 1. rewrite Hcalc.
    unfold bind at 1, get_world at 1. unfold bind at 1. rewrite Hstep.
    unfold bind at 1, get_world at 1. unfold bind at 1. rewrite Hrun.
    unfold ret. simpl fst.
    eexists. exists st2. split; [reflexivity|].
    split; [simpl; congruence|]. split; [exact Hc2|].
    set (T := threshold (self st)) in *.
    set (H := record_buffer_frames (self st)) in *.
    set (m := np_sum diff) in *.
    assert (Hw0 : (frames_written (world st) <? frames_written (world st1))%nat
                  = true <-> 0 < _record_buffer (self st1)).
    { rewrite Hwr, Nat.ltb_lt. unfold one_if.
      destruct (_record_buffer (self st1) >? 0) eqn:Hg.
      - rewrite Z.gtb_ltb in Hg. apply Z.ltb_lt in Hg. split; [intros _; exact Hg|lia].
      - rewrite Z.gtb_ltb in Hg. apply Z.ltb_ge in Hg. split; lia. }
    intros [|i] Hi.
    + simpl nth. simpl wrote. rewrite Hw0, Hb. simpl score.
      destruct (m >? T) eqn:Hm; rewrite Z.gtb_ltb in Hm.
      * apply Z.ltb_lt in Hm. split.
        -- intros HH0. left. exists 0%nat. simpl.
           split; [lia|]. split; lia.
        -- intros [(j & Hj & Hs & Hd)|[Hno _]].
           ++ lia.
           ++ specialize (Hno 0%nat (Nat.le_refl _)). simpl in Hno. lia.
      * apply Z.ltb_ge in Hm. split.
        -- intros Hb0. right. split; [|lia].
           intros j Hj. replace j with 0%nat by lia. simpl. lia.
        -- intros [(j & Hj & Hs & Hd)|[_ Hb0]].
           ++ replace j with 0%nat in Hs by lia. simpl in Hs. lia.
           ++ lia.
    + simpl List.length in Hi. simpl nth at 1.
      rewrite (Hobs i ltac:(lia)). rewrite HT, HH, Hb.
      fold T. fold H. split.
      * intros [(j & Hj & Hs & Hd)|[Hno Hb0]].
        -- left. exists (S j). simpl nth.
           split; [lia|]. split; [exact Hs|lia].
        -- destruct (m >? T) eqn:Hm; rewrite Z.gtb_ltb in Hm.
           ++ apply Z.ltb_lt in Hm. left. exists 0%nat. simpl nth.
              simpl score. split; [lia|]. split; lia.
           ++ apply Z.ltb_ge in Hm. right. split; [|lia].
              intros [|j] Hj; simpl nth; [simpl; lia|]. apply Hno. lia.
      * intros [(j & Hj & Hs & Hd)|[Hno Hb0]].
        -- destruct j as [|j].
           ++ simpl in Hs.
              assert (Hm : (m >? T) = true)
                by (rewrite Z.gtb_ltb; apply Z.ltb_lt; lia).
              rewrite Hm.
              destruct (motion_or_none
                          (fun k => score (nth k obs silent)) T i)
                as [Hnone|(k & Hk & Hsk)].
              ** right. split; [exact Hnone|lia].
              ** left. exists k. split; [lia|]. split; [exact Hsk|lia].
           ++ left. exists j. simpl nth in Hs.
              split; [lia|]. split; [exact Hs|lia].
        -- pose proof (Hno 0%nat ltac:(lia)) as H0. simpl in H0.
           assert (Hm : (m >? T) = false)
             by (rewrite Z.gtb_ltb; apply Z.ltb_ge; lia).
           rewrite Hm. right. split; [|lia].
           intros j Hj. specialize (Hno (S j) ltac:(lia)). exact Hno.
Qed.

Lemma Fresh_Consistent (T H : Z) (f0 : Frame) (st : State) :
  Fresh T H f0 st -> Consistent st.
Proof.
  intros (_ & _ & _ & Hb & Hr & Hw & Hdir & Hopen).
  unfold Consistent. rewrite Hb, Hr, Hw, Hopen.
  repeat split; try assumption; try congruence; lia.
Qed.

(** One step of a scripted run, unfolded. *)
Lemma process_frames_cons (frame : Frame) (rest : list Frame)
    (st : State) (last : Frame) :
  Consistent st ->
  _last_frame (self st) = Some last ->
  empty last = false ->
  shape frame = shape last ->
  exists m diff st1,
    _calculate_motion BGR2GRAY frame st = (Ok (m, diff), st)
    /\ StepSpec st frame m st1
    /\ empty frame = false
    /\ process_frames BGR2GRAY (frame :: rest) st
       = match process_frames BGR2GRAY rest st1 with
         | (Ok obs, st') =>
             (Ok ({| score := m;
                     detected := m >? threshold (self st);
                     wrote := _record_buffer (self st1) >? 0 |} :: obs),
              st')
         | (Raise e, st') => (Raise e, st')
         end.
Proof.
  intros Hcons Hlast Hne Hshape.
  assert (Hne' : empty frame = false)
    by (rewrite (empty_shape frame last Hshape); exact Hne).
  destruct (calculate_motion_returns BGR2GRAY st last frame
              Hlast Hshape Hne') as (diff & _ & Hcalc).
  destruct (process_frame_step st frame _ diff Hcalc Hcons)
    as (st1 & Hstep & Hspec).
  exists (np_sum diff), diff, st1.
  split; [exact Hcalc|]. split; [exact Hspec|]. split; [exact Hne'|].
  simpl process_frames. unfold bind at 1. rewrite Hcalc.
  unfold bind at 1, get_world at 1. unfold bind at 1. rewrite Hstep.
  unfold bind at 1, get_world at 1. unfold bind at 1.
  destruct (process_frames BGR2GRAY rest st1) as [[obs|e] st']; [|reflexivity].
  unfold ret. simpl fst.
  rewrite (step_written _ _ _ _ Hspec). unfold one_if.
  destruct (_record_buffer (self st1) >? 0).
  - replace (_ <? _)%nat with true
      by (symmetry; apply Nat.ltb_lt; lia).
    reflexivity.
  - replace (_ <? _)%nat with false
      by (symmetry; apply Nat.ltb_ge; lia).
    reflexivity.
Qed.

(** The counter along a run: a frame with motion sets it to the hold-over
    count, a frame without takes one off, with nothing to stop it at
    zero. *)
Lemma process_frames_buffer (frames : list Frame) :
  forall (st : State) (last : Frame),
  Consistent st ->
  _last_frame (self st) = Some last ->
  empty last = false ->
  Forall (fun f => shape f = shape last) frames ->
  exists obs st',
    process_frames BGR2GRAY frames st = (Ok obs, st')
    /\ Z.min (_record_buffer (self st)) (record_buffer_frames (self st))
       - Z.of_nat (List.length frames)
       <= _record_buffer (self st')
       <= Z.max (_record_buffer (self st)) (record_buffer_frames (self st))
    /\ (Forall (fun o => detected o = false) obs ->
        _record_buffer (self st')
        = _record_buffer (self st) - Z.of_nat (List.length frames)).
Proof.
  induction frames as [|frame rest IH]; intros st last Hcons Hlast Hne Hall.
  - exists [], st. split; [reflexivity|]. simpl. split; lia.
  - inversion Hall as [|? ? Hshape Hrest]; subst.
    destruct (process_frames_cons frame rest st last Hcons Hlast Hne Hshape)
      as (m & diff & st1 & _ & Hspec & Hne' & Heq).
    destruct Hspec as [HT HH Hlf _ Hb _ _ _ _ Hcons1].
    destruct (IH st1 frame Hcons1 Hlf Hne') as (obs & st2 & Hrun & Hbound & Hnone).
    { eapply Forall_impl; [|exact Hrest]. simpl. intros f Hf. congruence. }
    rewrite Heq, Hrun. eexists. exists st2. split; [reflexivity|].
    rewrite HH, Hb in Hbound. rewrite Hb in Hnone.
    simpl List.length. rewrite Nat2Z.inj_succ. split.
    + destruct (m >? threshold (self st)); lia.
    + intros Hdet. inversion Hdet as [|? ? Hd Hrest']; subst.
      simpl in Hd. rewrite Hd in Hnone. rewrite (Hnone Hrest'). lia.
Qed.

(** C2.  For every script of frames, threshold [T] and hold-over [H],
    from a fresh controller the frame of step [i] is written (recording
    is active) if and only if some step [j <= i] had a score above [T]
    with [i - j < H]; the scores are those [_calculate_motion] returned
    along the run, and the run does return. *)
Theorem recording_active_iff (T H : Z) (f0 : Frame) (frames : list Frame)
    (st : State) :
  Fresh T H f0 st ->
  empty f0 = false ->
  Forall (fun f => shape f = shape f0) frames ->
  exists obs st',
    process_frames BGR2GRAY frames st = (Ok obs, st')
    /\ List.length obs = List.length frames
    /\ forall i, (i < List.length frames)%nat ->
       (wrote (nth i obs silent) = true <->
        exists j, (j <= i)%nat
                  /\ score (nth j obs silent) > T
                  /\ Z.of_nat (i - j) < H).
Proof.
  intros HF Hne Hall.
  pose proof (Fresh_Consistent T H f0 st HF) as Hcons.
  destruct HF as (HT & HH & Hlast & Hb & _).
  destruct (process_frames_run frames st f0 Hcons Hlast Hne Hall)
    as (obs & st' & Hrun & Hlen & _ & Hobs).
  exists obs, st'. split; [exact Hrun|]. split; [exact Hlen|].
  intros i Hi. rewrite (Hobs i Hi), HT, HH, Hb. split.
  - intros [Hex|[_ Hneg]]; [exact Hex|lia].
  - intros Hex. left. exact Hex.
Qed.

(** C4, as the code has it: the hold-over counter starts at 0 and is not
    kept non-negative.  After [n] frames from a fresh controller it lies
    between [min 0 H - n] and [max 0 H], and as long as no frame showed
    motion it is exactly [- n]. *)
Theorem hold_over_counter_range (T H : Z) (f0 : Frame) (frames : list Frame)
    (st : State) :
  Fresh T H f0 st ->
  empty f0 = false ->
  Forall (fun f => shape f = shape f0) frames ->
  exists obs st',
    process_frames BGR2GRAY frames st = (Ok obs, st')
    /\ Z.min 0 H - Z.of_nat (List.length frames)
       <= _record_buffer (self st') <= Z.max 0 H
    /\ (Forall (fun o => detected o = false) obs ->
        _record_buffer (self st') = - Z.of_nat (List.length frames)).
Proof.
  intros HF Hne Hall.
  pose proof (Fresh_Consistent T H f0 st HF) as Hcons.
  destruct HF as (HT & HH & Hlast & Hb & _).
  destruct (process_frames_buffer frames st f0 Hcons Hlast Hne Hall)
    as (obs & st' & Hrun & Hbound & Hnone).
  rewrite Hb, HH in Hbound. rewrite Hb in Hnone.
  exists obs, st'. split; [exact Hrun|]. split; [exact Hbound|].
  intros Hdet. rewrite (Hnone Hdet). lia.
Qed.

(** C8.  [process_frame] returns [motion > threshold], a strict
    comparison, so a score equal to the threshold is not motion; this
    holds in every state of the hold-over counter, recording flag and
    writer. *)
Theorem process_frame_reports_strict (st : State) (frame : Frame) (m : Z)
    (diff : Gray) :
  _calculate_motion BGR2GRAY frame st = (Ok (m, diff), st) ->
  dir_exists (world st) = true ->
  exists b st',
    process_frame BGR2GRAY frame st = (Ok b, st')
    /\ (b = true <-> threshold (self st) < m)
    /\ (m = threshold (self st) -> b = false).
Proof.
  intros Hcalc Hdir.
  destruct (process_frame_returns st frame m diff Hcalc Hdir) as (st' & Hrun).
  exists (m >? threshold (self st)), st'. split; [exact Hrun|].
  rewrite Z.gtb_ltb. split.
  - apply Z.ltb_lt.
  - intros ->. apply Z.ltb_irrefl.
Qed.

Ltac next_frame Hcons Hlast Hne Hshape m st1 Hspec Hne1 Heq :=
  match goal with
  | |- context [process_frames BGR2GRAY (?f :: ?rest) ?st] =>
      destruct (process_frames_cons f rest st _ Hcons Hlast Hne Hshape)
        as (m & ? & st1 & _ & Hspec & Hne1 & Heq);
      rewrite Heq; clear Heq
  end.

(** C3, as the code has it.  Threshold 1000, hold-over 2, scores
    [0, 2000, 0, 0, 0] from a fresh controller: frames are written at
    steps 1 and 2 only (step 3 brings the counter to 0, which closes the
    session and writes nothing), and exactly one session is opened and
    then closed. *)
Theorem scenario_hold_over_two (f0 f1 f2 f3 f4 f5 : Frame) (st : State) :
  Fresh 1000 2 f0 st ->
  empty f0 = false ->
  Forall (fun f => shape f = shape f0) [f1; f2; f3; f4; f5] ->
  exists obs st',
    process_frames BGR2GRAY [f1; f2; f3; f4; f5] st = (Ok obs, st')
    /\ (map score obs = [0; 2000; 0; 0; 0] ->
        map wrote obs = [false; true; true; false; false]
        /\ sessions_opened (world st') = S (sessions_opened (world st))
        /\ sessions_closed (world st') = S (sessions_closed (world st))
        /\ _is_recording (self st') = false
        /\ _writer (self st') = None
        /\ open_writers (world st') = []).
Proof.
  intros HF Hne Hall.
  pose proof (Fresh_Consistent _ _ _ _ HF) as Hc0.
  destruct HF as (HT & HH & Hlast & Hb & Hr & _).
  inversion Hall as [|? ? Hs1 Hall1]; subst.
  inversion Hall1 as [|? ? Hs2 Hall2]; subst.
  inversion Hall2 as [|? ? Hs3 Hall3]; subst.
  inversion Hall3 as [|? ? Hs4 Hall4]; subst.
  inversion Hall4 as [|? ? Hs5 _]; subst.
  assert (Hs12 : shape f2 = shape f1) by congruence.
  assert (Hs23 : shape f3 = shape f2) by congruence.
  assert (Hs34 : shape f4 = shape f3) by congruence.
  assert (Hs45 : shape f5 = shape f4) by congruence.
  next_frame Hc0 Hlast Hne Hs1 m1 st1 S1 Hne1 E1.
  destruct S1 as [T1 H1 L1 _ B1 R1 _ O1 C1 Hc1].
  next_frame Hc1 L1 Hne1 Hs12 m2 st2 S2 Hne2 E2.
  destruct S2 as [T2 H2 L2 _ B2 R2 _ O2 C2 Hc2].
  next_frame Hc2 L2 Hne2 Hs23 m3 st3 S3 Hne3 E3.
  destruct S3 as [T3 H3 L3 _ B3 R3 _ O3 C3 Hc3].
  next_frame Hc3 L3 Hne3 Hs34 m4 st4 S4 Hne4 E4.
  destruct S4 as [T4 H4 L4 _ B4 R4 _ O4 C4 Hc4].
  next_frame Hc4 L4 Hne4 Hs45 m5 st5 S5 Hne5 E5.
  destruct S5 as [T5 H5 L5 _ B5 R5 _ O5 C5 Hc5].
  simpl process_frames. unfold ret.
  eexists. exists st5. split; [reflexivity|].
  simpl map. intros Hscores.
  injection Hscores as -> -> -> -> ->.
  rewrite HT, HH, Hb, Hr in *.
  rewrite T1, H1 in *. rewrite T2, H2 in *. rewrite T3, H3 in *.
  rewrite T4, H4 in *.
  simpl in B1, R1, O1, C1. rewrite B1, R1 in *.
  simpl in B2, R2, O2, C2. rewrite B2, R2 in *.
  simpl in B3, R3, O3, C3. rewrite B3, R3 in *.
  simpl in B4, R4, O4, C4. rewrite B4, R4 in *.
  simpl in B5, R5, O5, C5. rewrite B5.
  destruct Hc5 as (_ & Hrw & _ & Hopen).
  assert (Hw : _writer (self st5) = None).
  { destruct (_writer (self st5)) eqn:Hw; [|reflexivity].
    assert (false = true) by (rewrite <- R5; apply Hrw; discriminate).
    discriminate. }
  rewrite Hw in Hopen.
  split; [reflexivity|]. unfold one_if in *.
  repeat split; try assumption; lia.
Qed.

End Controller.

(** ** Artifact naming *)

Section Naming.

Local Open Scope string_scope.

Lemma string_length_append (a b : string) :
  String.length (a ++ b) = (String.length a + String.length b)%nat.
Proof. induction a as [|c a IH]; simpl; [reflexivity|]. rewrite IH. reflexivity. Qed.

Lemma zeros_length (n : nat) : String.length (Py.zeros n) = n.
Proof. induction n as [|n IH]; simpl; [reflexivity|]. rewrite IH. reflexivity. Qed.

Lemma decimal_value_zeros (n : nat) (s : string) :
  decimal_value (Py.zeros n ++ s) = decimal_value s.
Proof.
  unfold decimal_value. induction n as [|n IH]; simpl; [reflexivity|].
  destruct (NilEmpty.uint_of_string (Py.zeros n ++ s)) as [d|];
    destruct (NilEmpty.uint_of_string s) as [d'|]; simpl in *;
    try discriminate; try reflexivity.
  injection IH as IH. f_equal. exact IH.
Qed.

Lemma decimal_value_str_nat (n : nat) : decimal_value (Py.str_nat n) = Some n.
Proof.
  unfold decimal_value, Py.str_nat, NilZero.string_of_uint.
  pose proof (DecimalNat.Unsigned.of_to n) as Hn.
  destruct (Nat.to_uint n) as [| | | | | | | | | |] eqn:Hd;
    try (rewrite <- Hd, NilEmpty.usu; simpl; rewrite Hd; f_equal; exact Hn).
  simpl. f_equal. exact Hn.
Qed.

(** [{:04d}] writes the number in decimal, on at least four characters. *)
Lemma format_04d_value (n : nat) : decimal_value (Py.format_04d n) = Some n.
Proof.
  unfold Py.format_04d. rewrite decimal_value_zeros.
  apply decimal_value_str_nat.
Qed.

Lemma format_04d_length (n : nat) : (4 <= String.length (Py.format_04d n))%nat.
Proof.
  unfold Py.format_04d. rewrite string_length_append, zeros_length. lia.
Qed.

Lemma get_next_filename_run (st : State) :
  dir_exists (world st) = true ->
  _get_next_filename st
  = (Ok (Py.path_join (output_dir (self st))
           ("recording_"
            ++ Py.format_04d (List.length (filter is_avi (listing (world st))))
            ++ ".avi")), st).
Proof.
  intros Hdir. unfold _get_next_filename, listdir.
  unfold_monad. simpl. rewrite Hdir. reflexivity.
Qed.

(** C7.  When a session opens, the artifact is named
    [recording_<digits>.avi] inside the output directory, where the
    digits are the decimal writing, on at least four characters, of the
    number [k] of entries ending in [.avi] that the directory holds at
    that moment; an empty directory gives [0000]; the entries that were
    there stay as they are. *)
Theorem session_name_sequential (st : State) (k : nat) :
  dir_exists (world st) = true ->
  List.length (filter is_avi (listing (world st))) = k ->
  exists digits st',
    let filename :=
      Py.path_join (output_dir (self st)) ("recording_" ++ digits ++ ".avi") in
    _get_next_filename st = (Ok filename, st)
    /\ _start_recording st = (Ok tt, st')
    /\ _writer (self st') = Some filename
    /\ decimal_value digits = Some k
    /\ (4 <= String.length digits)%nat
    /\ (k = 0%nat -> digits = "0000")
    /\ exists created, listing (world st') = (listing (world st) ++ created)%list.
Proof.
  intros Hdir Hk. exists (Py.format_04d k).
  destruct st as [d w]. simpl in *.
  unfold _start_recording. unfold_monad.
  unfold _get_next_filename, listdir, writer_release, VideoWriter, print.
  unfold_monad. simpl.
  destruct (_writer d) as [f|]; simpl; rewrite Hdir; simpl; rewrite Hk;
    (eexists; split; [reflexivity|]; split; [reflexivity|];
     split; [reflexivity|]; split; [apply format_04d_value|];
     split; [apply format_04d_length|];
     split; [intros ->; reflexivity|]);
    unfold add_entry;
    match goal with
    | |- context [existsb ?p ?l] => destruct (existsb p l)
    end;
    ((exists []; rewrite app_nil_r; reflexivity) || (eexists; reflexivity)).
Qed.

Lemma one_other_file (st : State) (before after : list string) (f : string) :
  Py.endswith f ".avi" = false ->
  fst (_get_next_filename (with_listing (before ++ f :: after) st))
  = fst (_get_next_filename (with_listing (before ++ after) st)).
Proof.
  intros Hf. unfold _get_next_filename, listdir, with_listing.
  unfold_monad. simpl.
  destruct (dir_exists (world st)); simpl; [|reflexivity].
  rewrite !filter_app. simpl. unfold is_avi at 2. rewrite Hf. reflexivity.
Qed.

(** C10.  Only entries ending in [.avi] count: putting files with another
    ending into the listing, or taking such files out, at any place, leaves
    the next filename as it was. *)
Theorem other_files_do_not_count (st : State) (l l' : list string) :
  differ_by_other_files l l' ->
  fst (_get_next_filename (with_listing l st))
  = fst (_get_next_filename (with_listing l' st)).
Proof.
  induction 1 as [l|before after f Hf|before after f Hf|l1 l2 l3 _ IH1 _ IH2].
  - reflexivity.
  - symmetry. apply one_other_file. exact Hf.
  - apply one_other_file. exact Hf.
  - rewrite IH1. exact IH2.
Qed.

End Naming.

(** ** Start-up, the loop and shut-down *)

Section Lifecycle.

Variable BGR2GRAY : Pixel -> Z.

(** What [_cleanup] does, in any state: it never raises, lets go of the
    capture device first and of the writer second, and does not touch the
    recording flag. *)
Lemma cleanup_run (st : State) :
  exists st',
    _cleanup st = (Ok tt, st')
    /\ _video (self st') = None
    /\ _writer (self st') = None
    /\ _is_recording (self st') = _is_recording (self st)
    /\ log (world st')
       = (log (world st)
          ++ match _video (self st) with
             | Some _ => [EvCaptureRelease] | None => [] end
          ++ match _writer (self st) with
             | Some f => [EvWriterRelease f] | None => [] end
          ++ [EvDestroyAllWindows])%list
    /\ open_writers (world st')
       = match _writer (self st) with
         | Some f => remove_first f (open_writers (world st))
         | None => open_writers (world st)
         end
    /\ camera_held (world st')
       = match _video (self st) with
         | Some _ => false | None => camera_held (world st) end.
Proof.
  destruct st as [d w]. unfold_methods. unfold_monad. simpl.
  destruct (_video d) as [v|] eqn:Hv; simpl;
    destruct (_writer d) as [f|] eqn:Hw; simpl; rewrite ?Hw; simpl;
    eexists; (split; [reflexivity|]); simpl;
    rewrite <- ?app_assoc; simpl; rewrite ?Hw, ?Hv;
    repeat split; reflexivity.
Qed.

(** C5, as the code has it.  With the capture device and a session both
    open, [_cleanup] releases the capture device first and the writer of
    the session right after it, then the windows; it does not raise, and
    it leaves no handle behind. *)
Theorem cleanup_releases_capture_then_writer (st : State) (v : Z)
    (f : string) :
  _video (self st) = Some v ->
  _writer (self st) = Some f ->
  exists st',
    _cleanup st = (Ok tt, st')
    /\ log (world st')
       = (log (world st)
          ++ [EvCaptureRelease; EvWriterRelease f; EvDestroyAllWindows])%list
    /\ _video (self st') = None
    /\ _writer (self st') = None
    /\ camera_held (world st') = false
    /\ (open_writers (world st) = [f] -> open_writers (world st') = []).
Proof.
  intros Hv Hw.
  destruct (cleanup_run st) as (st' & Hrun & Hv' & Hw' & _ & Hlog & Hopen & Hcam).
  rewrite Hv, Hw in *. exists st'. repeat split; try assumption.
  intros Hone. rewrite Hopen, Hone. simpl. rewrite String.eqb_refl.
  reflexivity.
Qed.

Lemma run_loop_iterates (n : nat) (st st2 : State) :
  iterates BGR2GRAY n st st2 ->
  forall fuel, run_loop BGR2GRAY (n + fuel) st = run_loop BGR2GRAY fuel st2.
Proof.
  induction 1 as [st|n st st1 st2 Hbody _ IH]; intros fuel.
  - reflexivity.
  - simpl. rewrite Hbody. apply IH.
Qed.

Lemma run_body_read_failed (st st' : State) :
  video_read st = (Ok None, st') ->
  run_body BGR2GRAY st
  = (Ok false,
     {| self := self st';
        world := emit (EvStdout "Error: Could not read frame") (world st') |}).
Proof.
  intros Hread. unfold run_body. unfold bind at 1. rewrite Hread.
  reflexivity.
Qed.

Lemma video_read_keeps_self (st st' : State) (r : option Frame) :
  video_read st = (Ok r, st') ->
  self st' = self st /\ log (world st') = log (world st)
  /\ exists v, _video (self st) = Some v.
Proof.
  destruct st as [d w]. unfold video_read. unfold_monad. simpl.
  destruct (_video d) as [v|]; simpl; [|discriminate].
  intros [= _ <-]. simpl. repeat split. exists v. reflexivity.
Qed.

Lemma run_banner (fuel : nat) (st : State) :
  run BGR2GRAY fuel st
  = match run_loop BGR2GRAY fuel (banner st) with
    | Some (Ok _, st2) => Some (print "Motion detection stopped" st2)
    | other => other
    end.
Proof. reflexivity. Qed.

(** C9.  A read that fails inside the loop ends the loop without an
    exception, [_cleanup] runs after it and [main] returns 0; a camera
    that does not open, or whose first frame cannot be read, makes
    [__enter__] raise [RuntimeError], so that the loop never starts,
    [main] writes the message to the error stream and returns 1. *)
Theorem main_exit_codes (args : Namespace) (w : World) (fuel : nat) :
  (forall (st1 st2 st3 : State) (n : nat),
      __enter__ (boot args w) = (Ok tt, st1) ->
      iterates BGR2GRAY n (banner st1) st2 ->
      video_read st2 = (Ok None, st3) ->
      (n < fuel)%nat ->
      exists final,
        main BGR2GRAY args fuel w = Some (Ok 0, final)
        /\ exit_status (Ok 0) = 0
        /\ log (world final)
           = (log (world st2)
              ++ [EvStdout "Error: Could not read frame";
                  EvStdout "Motion detection stopped";
                  EvCaptureRelease]
              ++ match _writer (self st2) with
                 | Some f => [EvWriterRelease f] | None => [] end
              ++ [EvDestroyAllWindows])%list
        /\ camera_held (world final) = false
        /\ _video (self final) = None
        /\ _writer (self final) = None)
  /\ (camera_opens (script w) = false ->
      dir_exists w = true \/ dir_creatable (script w) = true ->
      exists st1 final,
        __enter__ (boot args w)
        = (Raise (RuntimeError ("Could not open camera "
                                ++ Py.str_int (camera args))), st1)
        /\ main BGR2GRAY args fuel w = Some (Ok 1, final)
        /\ exit_status (Ok 1) = 1
        /\ log (world final)
           = (log w ++ dir_events args w
              ++ [EvCaptureOpen (camera args);
                  EvStderr ("Error: Could not open camera "
                            ++ Py.str_int (camera args))])%list
        /\ reads (world final) = reads w)
  /\ (camera_opens (script w) = true ->
      camera_feed (script w) (reads w) = None ->
      dir_exists w = true \/ dir_creatable (script w) = true ->
      exists st1 final,
        __enter__ (boot args w)
        = (Raise (RuntimeError "Could not read from camera"), st1)
        /\ main BGR2GRAY args fuel w = Some (Ok 1, final)
        /\ exit_status (Ok 1) = 1
        /\ log (world final)
           = (log w ++ dir_events args w
              ++ [EvCaptureOpen (camera args);
                  EvStderr "Error: Could not read from camera"])%list
        /\ reads (world final) = S (reads w)).
Proof.
  split; [|split].
  - intros st1 st2 st3 n Henter Hiter Hread Hfuel.
    destruct (video_read_keeps_self st2 st3 None Hread)
      as (Hself & Hlog & v & Hv).
    set (st4 := {| self := self st3;
                   world := emit (EvStdout "Error: Could not read frame")
                              (world st3) |}).
    set (st5 := {| self := self st4;
                   world := emit (EvStdout "Motion detection stopped")
                              (world st4) |}).
    destruct (cleanup_run st5)
      as (final & Hclean & Hv' & Hw' & _ & Hlog' & _ & Hcam).
    assert (Hloop : run_loop BGR2GRAY fuel (banner st1) = Some (Ok tt, st4)).
    { replace fuel with (n + S (fuel - S n))%nat by lia.
      rewrite (run_loop_iterates n _ _ Hiter). simpl.
      rewrite (run_body_read_failed st2 st3 Hread). reflexivity. }
    exists final. split.
    + unfold main. fold (boot args w). rewrite Henter, run_banner, Hloop.
      unfold print, update_world. fold st5.
      unfold bind, __exit__. rewrite Hclean. reflexivity.
    + split; [reflexivity|]. split.
      * rewrite Hlog'. subst st5 st4. simpl. rewrite Hself, Hv, Hlog.
        rewrite <- !app_assoc. reflexivity.
      * split; [|split; assumption].
        rewrite Hcam. subst st5 st4. simpl. rewrite Hself, Hv. reflexivity.
  - intros Hclosed Hdir.
    unfold main. fold (boot args w). unfold __enter__, boot, dir_events.
    unfold_methods. unfold_monad. simpl.
    destruct (dir_exists w) eqn:Hex; simpl.
    + rewrite Hclosed. simpl. eexists. eexists.
      split; [reflexivity|]. split; [reflexivity|].
      split; [reflexivity|]. simpl. rewrite <- !app_assoc. split; reflexivity.
    + destruct Hdir as [Hdir|Hdir]; [discriminate|]. rewrite Hdir. simpl.
      rewrite Hclosed. simpl. eexists. eexists.
      split; [reflexivity|]. split; [reflexivity|].
      split; [reflexivity|]. simpl. rewrite <- !app_assoc. split; reflexivity.
  - intros Hopens Hfeed Hdir.
    unfold main. fold (boot args w). unfold __enter__, boot, dir_events.
    unfold_methods. unfold_monad. simpl.
    destruct (dir_exists w) eqn:Hex; simpl.
    + rewrite Hopens. simpl. rewrite Hfeed. simpl. eexists. eexists.
      split; [reflexivity|]. split; [reflexivity|].
      split; [reflexivity|]. simpl. rewrite <- !app_assoc. split; reflexivity.
    + destruct Hdir as [Hdir|Hdir]; [discriminate|]. rewrite Hdir. simpl.
      rewrite Hopens. simpl. rewrite Hfeed. simpl. eexists. eexists.
      split; [reflexivity|]. split; [reflexivity|].
      split; [reflexivity|]. simpl. rewrite <- !app_assoc. split; reflexivity.
Qed.

(** What [main] hands to [run] is a fresh controller. *)
Lemma setup_fresh (args : Namespace) (w : World) (f0 : Frame) :
  camera_opens (script w) = true ->
  camera_feed (script w) (reads w) = Some f0 ->
  dir_exists w = true \/ dir_creatable (script w) = true ->
  open_writers w = [] ->
  exists st1,
    __enter__ (boot args w) = (Ok tt, st1)
    /\ Fresh (arg_threshold args) (buffer args) f0 st1.
Proof.
  intros Hopens Hfeed Hdir Hnone.
  unfold __enter__, boot. unfold_methods. unfold_monad. simpl.
  destruct (dir_exists w) eqn:Hex; simpl.
  - rewrite Hopens. simpl. rewrite Hfeed. simpl.
    eexists. split; [reflexivity|].
    unfold Fresh. simpl. repeat split; assumption.
  - destruct Hdir as [Hdir|Hdir]; [discriminate|]. rewrite Hdir. simpl.
    rewrite Hopens. simpl. rewrite Hfeed. simpl.
    eexists. split; [reflexivity|].
    unfold Fresh. simpl. repeat split; assumption.
Qed.

End Lifecycle.

(** ** The properties at concrete inputs *)

Lemma state_on_fresh (T H : Z) (f0 : Frame) (entries : list string) :
  Fresh T H f0 (state_on T H f0 entries).
Proof. repeat split. Defined.

Lemma same_shape_scenario : Forall (fun f => shape f = shape dark) scenario.
Proof. repeat constructor. Defined.

Lemma calculate_motion_saturated_sum_witness :
  exists diff,
    _calculate_motion luma bright fresh_1000_2 = (Ok (2000, diff), fresh_1000_2).
Proof.
  destruct (calculate_motion_saturated_sum luma luma_u8 fresh_1000_2 dark bright
              eq_refl eq_refl eq_refl eq_refl) as (diff & Hrun & _).
  exists diff. exact Hrun.
Defined.

(** C1, as stated, fails: a frame going from white to black scores 0
    although the two grayscale images differ in every sample, and the
    score depends on the order of the two frames. *)
Lemma calculate_motion_not_absolute :
  fst (_calculate_motion luma black (state_on 0 0 white []))
  = Ok (0, [[0]])
  /\ cvtColor luma (Some black) <> cvtColor luma (Some white)
  /\ sum_abs_diff [[luma (grey_pixel x00)]] [[luma (grey_pixel xff)]] = 255
  /\ fst (_calculate_motion luma white (state_on 0 0 black []))
     = Ok (255, [[255]]).
Proof.
  split; [reflexivity|]. split; [discriminate|]. split; reflexivity.
Qed.

Lemma recording_active_iff_witness :
  exists obs st',
    process_frames luma scenario fresh_1000_2 = (Ok obs, st')
    /\ List.length obs = List.length scenario
    /\ forall i, (i < List.length scenario)%nat ->
       (wrote (nth i obs silent) = true <->
        exists j, (j <= i)%nat
                  /\ score (nth j obs silent) > 1000
                  /\ Z.of_nat (i - j) < 2).
Proof.
  apply (recording_active_iff luma 1000 2 dark scenario fresh_1000_2).
  - apply state_on_fresh.
  - reflexivity.
  - apply same_shape_scenario.
Defined.

Lemma scenario_hold_over_two_witness :
  exists obs st',
    process_frames luma scenario fresh_1000_2 = (Ok obs, st')
    /\ map score obs = [0; 2000; 0; 0; 0]
    /\ map wrote obs = [false; true; true; false; false]
    /\ sessions_opened (world st') = 1%nat
    /\ sessions_closed (world st') = 1%nat
    /\ open_writers (world st') = [].
Proof.
  destruct (scenario_hold_over_two luma dark dark bright bright bright bright
              fresh_1000_2 (state_on_fresh 1000 2 dark [])
              eq_refl same_shape_scenario) as (obs & st' & Hrun & Hthen).
  assert (Hscores : map score obs = [0; 2000; 0; 0; 0]).
  { change (process_frames luma [dark; bright; bright; bright; bright]
              fresh_1000_2)
      with (process_frames luma scenario fresh_1000_2) in Hrun.
    vm_compute in Hrun. injection Hrun as <- _. reflexivity. }
  destruct (Hthen Hscores) as (Hw & Ho & Hc & _ & _ & Hopen).
  exists obs, st'. repeat split; assumption.
Defined.

(** C3, as stated, fails: with these scores the frame of step 3 is not
    written; frames go to the writer at steps 1 and 2 only. *)
Lemma scenario_step3_not_written :
  exists obs st',
    process_frames luma scenario fresh_1000_2 = (Ok obs, st')
    /\ map score obs = [0; 2000; 0; 0; 0]
    /\ map wrote obs = [false; true; true; false; false]
    /\ wrote (nth 3 obs silent) = false
    /\ map wrote obs <> [false; true; true; true; false].
Proof.
  eexists. eexists. split; [vm_compute; reflexivity|].
  split; [reflexivity|]. split; [reflexivity|]. split; [reflexivity|].
  discriminate.
Qed.

Lemma hold_over_counter_range_witness :
  exists obs st',
    process_frames luma [dark; dark; dark] fresh_1000_2 = (Ok obs, st')
    /\ Z.min 0 2 - 3 <= _record_buffer (self st') <= Z.max 0 2
    /\ (Forall (fun o => detected o = false) obs ->
        _record_buffer (self st') = - 3).
Proof.
  apply (hold_over_counter_range luma 1000 2 dark [dark; dark; dark]
           fresh_1000_2).
  - apply state_on_fresh.
  - reflexivity.
  - repeat constructor.
Defined.

(** C4, as stated, fails: one frame without motion takes a fresh
    controller's counter from 0 to -1. *)
Lemma hold_over_counter_negative :
  exists st',
    process_frame luma dark fresh_1000_2 = (Ok false, st')
    /\ _record_buffer (self fresh_1000_2) = 0
    /\ _record_buffer (self st') = -1
    /\ ~ 0 <= _record_buffer (self st').
Proof.
  eexists. split; [vm_compute; reflexivity|].
  split; [reflexivity|]. split; [reflexivity|]. simpl. lia.
Qed.

Lemma cleanup_releases_capture_then_writer_witness :
  exists st',
    _cleanup mid_recording = (Ok tt, st')
    /\ log (world st')
       = (log (world mid_recording)
          ++ [EvCaptureRelease; EvWriterRelease "out/recording_0000.avi";
              EvDestroyAllWindows])%list
    /\ _video (self st') = None
    /\ _writer (self st') = None
    /\ camera_held (world st') = false
    /\ (open_writers (world mid_recording) = ["out/recording_0000.avi"%string]
        -> open_writers (world st') = []).
Proof.
  apply (cleanup_releases_capture_then_writer mid_recording 0
           "out/recording_0000.avi"); reflexivity.
Defined.

(** C5, as stated, fails: when [q] ends a run in the middle of a
    recording, the capture device is released at position 8 of the log and
    the writer of the open session only at position 9, after it. *)
Lemma capture_released_before_writer :
  exists final,
    main luma quit_args 10 quit_world = Some (Ok 0, final)
    /\ position is_capture_release (log (world final)) = Some 8%nat
    /\ position is_release (log (world final)) = Some 9%nat
    /\ nth 9 (log (world final)) EvDestroyAllWindows
       = EvWriterRelease "out/recording_0000.avi".
Proof.
  eexists. split; [vm_compute; reflexivity|]. repeat split.
Qed.

(** C6 does not hold of the code: after the same run the writer handle is
    gone while the recording flag still says that a recording is in
    progress, because [_cleanup], unlike [_stop_recording], releases the
    writer without clearing [_is_recording]. *)
Lemma cleanup_leaves_recording_flag :
  exists final,
    main luma quit_args 10 quit_world = Some (Ok 0, final)
    /\ _writer (self final) = None
    /\ _is_recording (self final) = true
    /\ open_writers (world final) = [].
Proof.
  eexists. split; [vm_compute; reflexivity|]. repeat split.
Qed.

Lemma session_name_sequential_witness :
  exists digits st',
    let st := state_on 1000 2 dark
                ["recording_0000.avi"; "notes.txt"; "clip.avi"]%string in
    let filename := Py.path_join "out" ("recording_" ++ digits ++ ".avi") in
    _get_next_filename st = (Ok filename, st)
    /\ _start_recording st = (Ok tt, st')
    /\ _writer (self st') = Some filename
    /\ decimal_value digits = Some 2%nat
    /\ (4 <= String.length digits)%nat
    /\ (2%nat = 0%nat -> digits = "0000"%string)
    /\ exists created,
         listing (world st') = (listing (world st) ++ created)%list.
Proof.
  apply (session_name_sequential
           (state_on 1000 2 dark
              ["recording_0000.avi"; "notes.txt"; "clip.avi"]%string) 2);
    reflexivity.
Defined.

Lemma process_frame_reports_strict_witness :
  exists b st',
    let st := state_on 2000 2 dark [] in
    process_frame luma bright st = (Ok b, st')
    /\ (b = true <-> threshold (self st) < 2000)
    /\ (2000 = threshold (self st) -> b = false).
Proof.
  apply (process_frame_reports_strict luma (state_on 2000 2 dark []) bright 2000
           [repeat 250 8]); reflexivity.
Defined.

Lemma other_files_do_not_count_witness :
  let st := state_on 1000 2 dark [] in
  fst (_get_next_filename
         (with_listing ["recording_0000.avi"; "b.avi"]%string st))
  = fst (_get_next_filename
           (with_listing ["recording_0000.avi"; "notes.txt"; "b.avi"]%string
              st)).
Proof.
  apply (other_files_do_not_count (state_on 1000 2 dark [])
           ["recording_0000.avi"; "b.avi"]%string
           ["recording_0000.avi"; "notes.txt"; "b.avi"]%string).
  apply (differ_added ["recording_0000.avi"%string] ["b.avi"%string]
           "notes.txt").
  reflexivity.
Defined.

Lemma main_exit_codes_witness :
  (exists final,
      main luma quit_args 10 failing_world = Some (Ok 0, final)
      /\ camera_held (world final) = false
      /\ _writer (self final) = None)
  /\ (exists final,
        main luma quit_args 10 closed_world = Some (Ok 1, final)
        /\ log (world final)
           = [EvMakedirs "out"; EvCaptureOpen 0;
              EvStderr "Error: Could not open camera 0"])
  /\ (exists final,
        main luma quit_args 10 blind_world = Some (Ok 1, final)
        /\ log (world final)
           = [EvCaptureOpen 0; EvStderr "Error: Could not read from camera"]).
Proof.
  split; [|split].
  - destruct (main_exit_codes luma quit_args failing_world 10) as (Hloop & _ & _).
    edestruct Hloop as (final & Hmain & _ & _ & Hcam & _ & Hw).
    + vm_compute. reflexivity.
    + eapply iterates_S; [vm_compute; reflexivity|apply iterates_O].
    + vm_compute. reflexivity.
    + lia.
    + exists final. repeat split; assumption.
  - destruct (main_exit_codes luma quit_args closed_world 10) as (_ & Hclosed & _).
    destruct Hclosed as (st1 & final & _ & Hmain & _ & Hlog & _).
    + reflexivity.
    + right. reflexivity.
    + exists final. split; [exact Hmain|exact Hlog].
  - destruct (main_exit_codes luma quit_args blind_world 10) as (_ & _ & Hblind).
    destruct Hblind as (st1 & final & _ & Hmain & _ & Hlog & _).
    + reflexivity.
    + reflexivity.
    + left. reflexivity.
    + exists final. split; [exact Hmain|exact Hlog].
Defined.

(** ** Checks of the model against Python *)

Example endswith_avi : Py.endswith "clip.avi" ".avi" = true.
Proof. reflexivity. Qed.

Example endswith_upper : Py.endswith "clip.AVI" ".avi" = false.
Proof. reflexivity. Qed.

Example endswith_inner : Py.endswith "clip.avi.part" ".avi" = false.
Proof. reflexivity. Qed.

Example endswith_bare : Py.endswith ".avi" ".avi" = true.
Proof. reflexivity. Qed.

Example endswith_short : Py.endswith "avi" ".avi" = false.
Proof. reflexivity. Qed.

Example format_04d_7 : Py.format_04d 7 = "0007"%string.
Proof. reflexivity. Qed.

Example format_04d_12345 : Py.format_04d 12345 = "12345"%string.
Proof. reflexivity. Qed.

Example path_join_plain :
  Py.path_join "output_files" "recording_0000.avi"
  = "output_files/recording_0000.avi"%string.
Proof. reflexivity. Qed.

Example path_join_slash :
  Py.path_join "out/" "recording_0000.avi" = "out/recording_0000.avi"%string.
Proof. reflexivity. Qed.

Example basename_joined :
  basename "output_files/recording_0000.avi" = "recording_0000.avi"%string.
Proof. reflexivity. Qed.

Example luma_grey : luma (grey_pixel xfa) = 250.
Proof. reflexivity. Qed.

Example quit_key : Z.land 113 255 = 113 /\ Z.land (-1) 255 = 255.
Proof. split; reflexivity. Qed.

(** Sessions opened one after the other in an empty directory are numbered
    0, 1, 2. *)
Example three_sessions :
  let start := (_start_recording ;; _stop_recording)%py in
  listing (world (snd ((start ;; start ;; start)%py fresh_1000_2)))
  = ["recording_0000.avi"; "recording_0001.avi"; "recording_0002.avi"]%string.
Proof. vm_compute. reflexivity. Qed.

(** ** Further properties of the estimate and of one call *)

Ltac process_frame_cases d w Hw Hdir :=
  destruct (_is_recording d) eqn:?;
  destruct (_writer d) as [?f|] eqn:Hw;
  destruct (show_preview d) eqn:?;
  destruct (dir_exists w) eqn:Hdir;
  repeat (simpl; rewrite ?Hw, ?Hdir; simpl;
          try match goal with
              | |- context [if ?b then _ else _] => destruct b eqn:?
              end).

Section OneCall.

Variable BGR2GRAY : Pixel -> Z.

Local Abbreviation grayscale := (map (map BGR2GRAY)).

(** [_calculate_motion] reads the state and never changes it. *)
Lemma calculate_motion_estimate (st : State) (frame : Frame) :
  _calculate_motion BGR2GRAY frame st
  = (match estimate BGR2GRAY (_last_frame (self st)) frame with
     | Some r => Ok r
     | None => Raise CvError
     end, st).
Proof.
  unfold _calculate_motion, estimate, bind, get_self, cv, ret, raise.
  cbv beta iota.
  destruct (cvtColor BGR2GRAY (Some frame)) as [c|]; [|reflexivity].
  destruct (cvtColor BGR2GRAY (_last_frame (self st))) as [l|]; [|reflexivity].
  destruct (subtract c l) as [d|]; reflexivity.
Qed.

Lemma estimate_some (last : option Frame) (frame : Frame) (m : Z)
    (diff : Gray) :
  estimate BGR2GRAY last frame = Some (m, diff) ->
  exists f0,
    last = Some f0
    /\ shape frame = shape f0
    /\ empty frame = false
    /\ subtract (grayscale frame) (grayscale f0) = Some diff
    /\ m = np_sum diff.
Proof.
  unfold estimate, cvtColor.
  destruct (empty frame) eqn:He; [discriminate|].
  destruct last as [f0|]; [|discriminate].
  destruct (empty f0); [discriminate|].
  destruct (subtract (grayscale frame) (grayscale f0)) as [d|] eqn:Hd;
    [|discriminate].
  intros [= <- <-]. exists f0. repeat split; try reflexivity; try assumption.
  destruct (list_eq_dec Nat.eq_dec (shape frame) (shape f0)) as [Hs|Hs];
    [exact Hs|].
  rewrite subtract_none in Hd; [discriminate|].
  rewrite !shape_map. exact Hs.
Qed.

Lemma estimate_none (last : option Frame) (frame : Frame) :
  (last = None
   \/ empty frame = true
   \/ exists f0, last = Some f0 /\ shape frame <> shape f0) ->
  estimate BGR2GRAY last frame = None.
Proof.
  unfold estimate, cvtColor. intros [->|[He|(f0 & -> & Hs)]].
  - destruct (empty frame); reflexivity.
  - rewrite He. reflexivity.
  - destruct (empty frame); [reflexivity|].
    destruct (empty f0); [reflexivity|].
    rewrite subtract_none; [reflexivity|]. rewrite !shape_map. exact Hs.
Qed.

(** X1.  A frame that cannot be compared with the stored one, because no
    frame is stored yet, or the frame is empty, or the two differ in shape,
    makes [process_frame] raise [cv2.error] before anything else happens:
    the state of the detector and of the world is what it was. *)
Theorem process_frame_rejects_bad_frame (st : State) (frame : Frame) :
  (_last_frame (self st) = None
   \/ empty frame = true
   \/ exists f0, _last_frame (self st) = Some f0 /\ shape frame <> shape f0) ->
  process_frame BGR2GRAY frame st = (Raise CvError, st).
Proof.
  intros Hbad. unfold process_frame. unfold bind at 1.
  rewrite calculate_motion_estimate, (estimate_none _ _ Hbad). reflexivity.
Qed.

(** [process_frame] never touches the camera or the keyboard, whatever
    its outcome. *)
Lemma process_frame_leaves_camera (st st' : State) (frame : Frame)
    (r : result bool) :
  process_frame BGR2GRAY frame st = (r, st') ->
  script (world st') = script (world st)
  /\ reads (world st') = reads (world st)
  /\ polls (world st') = polls (world st)
  /\ camera_held (world st') = camera_held (world st)
  /\ _video (self st') = _video (self st).
Proof.
  unfold process_frame. unfold bind at 1. rewrite calculate_motion_estimate.
  destruct (estimate BGR2GRAY (_last_frame (self st)) frame) as [[m diff]|].
  - destruct st as [d w]. unfold_methods. unfold_monad. simpl.
    process_frame_cases d w Hw Hdir;
      intros [= <- <-]; simpl; repeat split; reflexivity.
  - intros [= <- <-]. repeat split; reflexivity.
Qed.

End OneCall.

(** ** Further properties of scripted runs *)

Section Scores.

Variable BGR2GRAY : Pixel -> Z.

Local Abbreviation grayscale := (map (map BGR2GRAY)).

Lemma total_zeros (l : list Z) : Forall (fun v => v = 0) l -> total l = 0.
Proof. induction 1 as [|v l Hv _ IH]; simpl; [reflexivity|lia]. Qed.

(** What a successful estimate says about its inputs. *)
Lemma calculate_motion_ok (st st' : State) (frame : Frame) (m : Z)
    (diff : Gray) :
  _calculate_motion BGR2GRAY frame st = (Ok (m, diff), st') ->
  st' = st
  /\ exists last,
       _last_frame (self st) = Some last
       /\ shape frame = shape last
       /\ empty frame = false
       /\ subtract (grayscale frame) (grayscale last) = Some diff
       /\ m = np_sum diff.
Proof.
  rewrite calculate_motion_estimate.
  destruct (estimate BGR2GRAY (_last_frame (self st)) frame) as [[m' d']|] eqn:He;
    [|discriminate].
  intros [= -> -> <-]. split; [reflexivity|].
  apply estimate_some in He. exact He.
Qed.

(** A frame that is nowhere brighter than the stored one scores 0. *)
Lemma dim_frame_scores_zero (last frame : Frame) (diff : Gray) :
  shape frame = shape last ->
  never_brighter BGR2GRAY last frame ->
  subtract (grayscale frame) (grayscale last) = Some diff ->
  np_sum diff = 0.
Proof.
  intros Hshape Hdim Hd.
  destruct (subtract_some (grayscale frame) (grayscale last))
    as (d & Hd' & Hpx & _).
  { rewrite !shape_map. exact Hshape. }
  rewrite Hd in Hd'. injection Hd' as <-.
  unfold np_sum. rewrite Hpx, total_zeros; [reflexivity|].
  apply Forall_map. eapply Forall_impl; [|exact Hdim].
  intros [x y] Hxy. simpl in *. unfold saturate_u8. lia.
Qed.

Lemma np_sum_nonneg (img : Gray) : 0 <= np_sum img.
Proof.
  unfold np_sum, uint64. apply Z.mod_pos_bound. reflexivity.
Qed.

(** X3.  As long as every frame is nowhere brighter than the one before it
    (a still scene, or one that only darkens) and the threshold is not
    negative, a fresh controller detects no motion at all: every score is
    0, no frame is written, no session is opened, and the counter just
    counts down. *)
Theorem dimming_scene_never_records (T H : Z) (f0 : Frame)
    (frames : list Frame) (st : State) :
  Fresh T H f0 st ->
  0 <= T ->
  empty f0 = false ->
  dimming BGR2GRAY f0 frames ->
  exists obs st',
    process_frames BGR2GRAY frames st = (Ok obs, st')
    /\ Forall (fun o => score o = 0 /\ detected o = false /\ wrote o = false)
              obs
    /\ sessions_opened (world st') = sessions_opened (world st)
    /\ frames_written (world st') = frames_written (world st)
    /\ _record_buffer (self st') = - Z.of_nat (List.length frames).
Proof.
  intros HF HT Hne Hdim.
  pose proof (Fresh_Consistent T H f0 st HF) as Hcons.
  destruct HF as (HT0 & _ & Hlast & Hb & Hr & _).
  assert (Hb0 : _record_buffer (self st) <= 0) by lia.
  replace (- Z.of_nat (List.length frames))
    with (_record_buffer (self st) - Z.of_nat (List.length frames)) by lia.
  subst T. clear Hb.
  revert st f0 Hcons Hlast Hr Hb0 HT Hne Hdim.
  induction frames as [|frame rest IH];
    intros st f0 Hcons Hlast Hr Hb0 HT Hne Hdim.
  - exists [], st. simpl. repeat split; try reflexivity; try constructor. lia.
  - destruct Hdim as (Hshape & Hdark & Hrest).
    destruct (process_frames_cons BGR2GRAY frame rest st f0 Hcons Hlast Hne Hshape)
      as (m & diff & st1 & Hcalc & Hspec & Hne1 & Heq).
    destruct (calculate_motion_ok st st frame m diff Hcalc)
      as (_ & last & Hlast' & _ & _ & Hd & Hm).
    rewrite Hlast in Hlast'. injection Hlast' as <-.
    assert (Hm0 : m = 0)
      by (rewrite Hm; apply (dim_frame_scores_zero f0 frame diff); assumption).
    assert (Hgt : (m >? threshold (self st)) = false)
      by (rewrite Z.gtb_ltb; apply Z.ltb_ge; lia).
    destruct Hspec as [HT1 _ Hlf _ Hb1 Hr1 Hw1 Ho1 _ Hcons1].
    rewrite Hgt in Hb1, Hr1, Ho1. simpl in Ho1.
    assert (Hle : (_record_buffer (self st) - 1 <=? 0) = true)
      by (apply Z.leb_le; lia).
    rewrite Hle in Hr1.
    assert (Hng : (_record_buffer (self st1) >? 0) = false)
      by (rewrite Z.gtb_ltb; apply Z.ltb_ge; lia).
    rewrite Hng in Hw1. unfold one_if in Hw1, Ho1.
    destruct (IH st1 frame Hcons1 Hlf Hr1 ltac:(lia) ltac:(lia) Hne1 Hrest)
      as (obs & st2 & Hrun & Hall & Ho2 & Hw2 & Hb2).
    rewrite Heq, Hrun, Hgt, Hng.
    eexists. exists st2. split; [reflexivity|]. split.
    + constructor; [simpl; repeat split; assumption|exact Hall].
    + split; [lia|]. split; [lia|].
      simpl List.length. rewrite Nat2Z.inj_succ. lia.
Qed.

(** X4.  With a negative threshold every frame counts as motion, since a
    score is never negative; with a positive hold-over count every frame
    is then written, into the one session opened at the first frame, which
    is never closed during the run. *)
Theorem negative_threshold_records_everything (T H : Z) (f0 : Frame)
    (frames : list Frame) (st : State) :
  Fresh T H f0 st ->
  T < 0 ->
  empty f0 = false ->
  Forall (fun f => shape f = shape f0) frames ->
  exists obs st',
    process_frames BGR2GRAY frames st = (Ok obs, st')
    /\ Forall (fun o => detected o = true) obs
    /\ (0 < H ->
        Forall (fun o => wrote o = true) obs
        /\ sessions_opened (world st')
           = (sessions_opened (world st)
              + match frames with [] => 0 | _ :: _ => 1 end)%nat
        /\ sessions_closed (world st') = sessions_closed (world st)).
Proof.
  intros HF HT Hne Hall.
  pose proof (Fresh_Consistent T H f0 st HF) as Hcons.
  destruct HF as (HT0 & HH0 & Hlast & _ & Hr & _).
  assert (Hgen : forall (frames : list Frame) (st : State) (f0 : Frame),
             Consistent st -> threshold (self st) = T ->
             record_buffer_frames (self st) = H ->
             _last_frame (self st) = Some f0 -> empty f0 = false ->
             Forall (fun f => shape f = shape f0) frames ->
             exists obs st',
               process_frames BGR2GRAY frames st = (Ok obs, st')
               /\ Forall (fun o => detected o = true) obs
               /\ (0 < H ->
                   Forall (fun o => wrote o = true) obs
                   /\ sessions_opened (world st')
                      = (sessions_opened (world st)
                         + match frames with
                           | [] => 0
                           | _ :: _ => one_if (negb (_is_recording (self st)))
                           end)%nat
                   /\ sessions_closed (world st') = sessions_closed (world st))).
  { clear - HT. intros frames.
    induction frames as [|frame rest IH];
      intros st f0 Hcons HT0 HH0 Hlast Hne Hall.
    - exists [], st. split; [reflexivity|]. split; [constructor|].
      intros _. split; [constructor|]. split; lia.
    - apply Forall_cons_iff in Hall. destruct Hall as [Hshape Hrest].
      destruct (process_frames_cons BGR2GRAY frame rest st f0
                  Hcons Hlast Hne Hshape)
        as (m & diff & st1 & Hcalc & Hspec & Hne1 & Heq).
      destruct (calculate_motion_ok st st frame m diff Hcalc)
        as (_ & last & _ & _ & _ & _ & Hm).
      pose proof (np_sum_nonneg diff) as Hpos. rewrite <- Hm in Hpos.
      assert (Hgt : (m >? threshold (self st)) = true)
        by (rewrite Z.gtb_ltb; apply Z.ltb_lt; lia).
      destruct Hspec as [HT1 HH1 Hlf _ Hb1 Hr1 _ Ho1 Hc1 Hcons1].
      rewrite Hgt in Hb1, Hr1, Ho1, Hc1. simpl in Ho1, Hc1.
      destruct (IH st1 frame Hcons1 (eq_trans HT1 HT0) (eq_trans HH1 HH0)
                  Hlf Hne1) as (obs & st2 & Hrun & Hdet & Hpos').
      { eapply Forall_impl; [|exact Hrest]. simpl. intros f Hf. congruence. }
      rewrite Heq, Hrun, Hgt. eexists. exists st2.
      split; [reflexivity|]. split; [constructor; [reflexivity|exact Hdet]|].
      intros HH. destruct (Hpos' HH) as (Hwr & Ho2 & Hc2).
      assert (Hbg : (_record_buffer (self st1) >? 0) = true)
        by (rewrite Hb1, HH0, Z.gtb_ltb; apply Z.ltb_lt; exact HH).
      split; [constructor; [exact Hbg|exact Hwr]|].
      rewrite Hr1 in Ho2. unfold one_if in *. simpl in Ho2.
      split; [destruct rest; lia|lia]. }
  destruct (Hgen frames st f0 Hcons HT0 HH0 Hlast Hne Hall)
    as (obs & st' & Hrun & Hdet & Hpos).
  exists obs, st'. split; [exact Hrun|]. split; [exact Hdet|].
  intros HH. destruct (Hpos HH) as (Hwr & Ho & Hc).
  rewrite Hr in Ho. split; [exact Hwr|]. split; [exact Ho|exact Hc].
Qed.

End Scores.

Section ScoreBound.

Variable BGR2GRAY : Pixel -> Z.
Hypothesis BGR2GRAY_u8 : forall p, is_u8 (BGR2GRAY p).

Local Abbreviation grayscale := (map (map BGR2GRAY)).

(** X2.  A score is at most 255 for every pixel of the frame, so a
    threshold of 255 times the number of pixels or more can never be
    exceeded: [process_frame] then reports no motion, whatever the two
    frames show. *)
Theorem score_at_most_255_per_pixel (st st' : State) (frame : Frame) (m : Z)
    (diff : Gray) :
  _calculate_motion BGR2GRAY frame st = (Ok (m, diff), st') ->
  0 <= m <= 255 * Z.of_nat (List.length (pixels frame))
  /\ (255 * Z.of_nat (List.length (pixels frame)) <= threshold (self st) ->
      dir_exists (world st) = true ->
      exists st'', process_frame BGR2GRAY frame st = (Ok false, st'')).
Proof.
  intros Hcalc.
  destruct (calculate_motion_ok BGR2GRAY st st' frame m diff Hcalc)
    as (-> & last & Hlast & Hshape & Hne & Hd & Hm).
  destruct (diff_pixels BGR2GRAY BGR2GRAY_u8 frame last diff Hshape Hd)
    as [Hpx Hlen].
  assert (Hrange : Forall (fun v => 0 <= v <= 255) (pixels diff)).
  { rewrite Hpx. apply Forall_map.
    eapply Forall_impl; [|apply (gray_pairs_u8 BGR2GRAY BGR2GRAY_u8)].
    intros [x y] [Hx Hy]. unfold is_u8 in *. simpl in *. lia. }
  pose proof (total_bounds 255 (pixels diff) ltac:(lia) Hrange) as Htot.
  rewrite Hlen in Htot.
  assert (Hbound : 0 <= m <= 255 * Z.of_nat (List.length (pixels frame))).
  { rewrite Hm. unfold np_sum, uint64. split.
    - apply Z.mod_pos_bound. reflexivity.
    - etransitivity; [apply Z.mod_le; [lia|reflexivity]|lia]. }
  split; [exact Hbound|]. intros Hthr Hdir.
  destruct (process_frame_returns BGR2GRAY st frame m diff Hcalc Hdir)
    as (st'' & Hrun).
  exists st''. rewrite Hrun. do 2 f_equal.
  rewrite Z.gtb_ltb. apply Z.ltb_ge. lia.
Qed.

End ScoreBound.

Lemma written_app (l1 l2 : list Event) :
  written (l1 ++ l2) = (written l1 ++ written l2)%list.
Proof. unfold written. apply flat_map_app. Qed.

Section Sessions.

Variable BGR2GRAY : Pixel -> Z.

(** One step of a scripted run, with the call of [process_frame] in
    view. *)
Lemma process_frames_step (frame : Frame) (rest : list Frame)
    (st : State) (last : Frame) :
  Consistent st ->
  _last_frame (self st) = Some last ->
  empty last = false ->
  shape frame = shape last ->
  exists m st1,
    process_frame BGR2GRAY frame st = (Ok (m >? threshold (self st)), st1)
    /\ StepSpec st frame m st1
    /\ empty frame = false
    /\ process_frames BGR2GRAY (frame :: rest) st
       = match process_frames BGR2GRAY rest st1 with
         | (Ok obs, st') =>
             (Ok ({| score := m;
                     detected := m >? threshold (self st);
                     wrote := _record_buffer (self st1) >? 0 |} :: obs),
              st')
         | (Raise e, st') => (Raise e, st')
         end.
Proof.
  intros Hcons Hlast Hne Hshape.
  assert (Hne' : empty frame = false)
    by (rewrite (empty_shape frame last Hshape); exact Hne).
  destruct (calculate_motion_returns BGR2GRAY st last frame
              Hlast Hshape Hne') as (diff & _ & Hcalc).
  destruct (process_frame_step BGR2GRAY st frame _ diff Hcalc Hcons)
    as (st1 & Hstep & Hspec).
  exists (np_sum diff), st1.
  split; [exact Hstep|]. split; [exact Hspec|]. split; [exact Hne'|].
  simpl process_frames. unfold bind at 1. rewrite Hcalc.
  unfold bind at 1, get_world at 1. unfold bind at 1. rewrite Hstep.
  unfold bind at 1, get_world at 1. unfold bind at 1.
  destruct (process_frames BGR2GRAY rest st1) as [[obs|e] st']; [|reflexivity].
  unfold ret. simpl fst.
  rewrite (step_written _ _ _ _ Hspec). unfold one_if.
  destruct (_record_buffer (self st1) >? 0).
  - replace (_ <? _)%nat with true by (symmetry; apply Nat.ltb_lt; lia).
    reflexivity.
  - replace (_ <? _)%nat with false by (symmetry; apply Nat.ltb_ge; lia).
    reflexivity.
Qed.

(** The frame a call hands to the writer: the very frame it was given,
    and only while the counter is positive and a writer is held. *)
Lemma process_frame_writes (st st' : State) (frame : Frame) (b : bool) :
  process_frame BGR2GRAY frame st = (Ok b, st') ->
  written (log (world st'))
  = (written (log (world st))
     ++ match _writer (self st') with
        | Some f =>
            if _record_buffer (self st') >? 0 then [(f, frame)] else []
        | None => []
        end)%list.
Proof.
  unfold process_frame. unfold bind at 1. rewrite calculate_motion_estimate.
  destruct (estimate BGR2GRAY (_last_frame (self st)) frame) as [[m diff]|];
    [|discriminate].
  destruct st as [d w]. unfold_methods. unfold_monad. simpl.
  process_frame_cases d w Hw Hdir;
    intros Heq; try discriminate; injection Heq as <- <-; simpl in *;
    rewrite ?written_app; simpl; rewrite ?app_nil_r, ?Hw;
    simpl; rewrite ?app_nil_r; try reflexivity; congruence.
Qed.

(** X5.  With a positive hold-over count, sessions are the stretches of
    consecutive written frames: over a run from a fresh controller, a
    session is opened at every step where writing starts and closed at
    every step where it stops, so that motion coming back before the
    counter has run down continues the same session. *)
Theorem sessions_are_episodes (T H : Z) (f0 : Frame) (frames : list Frame)
    (st : State) :
  Fresh T H f0 st ->
  0 < H ->
  empty f0 = false ->
  Forall (fun f => shape f = shape f0) frames ->
  exists obs st',
    process_frames BGR2GRAY frames st = (Ok obs, st')
    /\ sessions_opened (world st')
       = (sessions_opened (world st)
          + rising_edges false (map wrote obs))%nat
    /\ sessions_closed (world st')
       = (sessions_closed (world st)
          + rising_edges true (map negb (map wrote obs)))%nat.
Proof.
  intros HF HH Hne Hall.
  pose proof (Fresh_Consistent T H f0 st HF) as Hcons.
  destruct HF as (_ & HH0 & Hlast & Hb & Hr & _).
  assert (Hinv : _is_recording (self st) = true -> 0 < _record_buffer (self st))
    by (rewrite Hr; discriminate).
  change true with (negb false) at 1. rewrite <- Hr.
  subst H. clear Hb Hr.
  revert st f0 Hcons Hlast Hinv HH Hne Hall.
  induction frames as [|frame rest IH];
    intros st f0 Hcons Hlast Hinv HH Hne Hall.
  - exists [], st. split; [reflexivity|]. simpl. split; lia.
  - apply Forall_cons_iff in Hall. destruct Hall as [Hshape Hrest].
    destruct (process_frames_step frame rest st f0 Hcons Hlast Hne Hshape)
      as (m & st1 & _ & Hspec & Hne1 & Heq).
    destruct Hspec as [_ HH1 Hlf _ Hb1 Hr1 _ Ho1 Hc1 Hcons1].
    assert (Hflag : _is_recording (self st1) = (_record_buffer (self st1) >? 0)).
    { rewrite Hr1, Hb1. destruct (m >? threshold (self st)).
      - symmetry. rewrite Z.gtb_ltb. apply Z.ltb_lt. exact HH.
      - destruct (_record_buffer (self st) - 1 <=? 0) eqn:Hle.
        + symmetry. rewrite Z.gtb_ltb. apply Z.ltb_ge.
          apply Z.leb_le. exact Hle.
        + apply Z.leb_gt in Hle.
          destruct Hcons as (_ & _ & Hpos & _). rewrite Hpos by lia.
          symmetry. rewrite Z.gtb_ltb. apply Z.ltb_lt. lia. }
    destruct (IH st1 frame Hcons1 Hlf) as (obs & st2 & Hrun & Ho2 & Hc2).
    { rewrite Hflag, Z.gtb_ltb. intros Hlt. apply Z.ltb_lt. exact Hlt. }
    { rewrite HH1. exact HH. }
    { exact Hne1. }
    { eapply Forall_impl; [|exact Hrest]. simpl. intros f Hf. congruence. }
    rewrite Heq, Hrun. eexists. exists st2. split; [reflexivity|].
    simpl map. simpl rising_edges. rewrite <- Hflag.
    rewrite Ho2, Hc2, Ho1, Hc1, Hr1.
    assert (Hrec : _is_recording (self st) = true -> 0 < _record_buffer (self st))
      by exact Hinv.
    destruct Hcons as (_ & _ & Hpos & _).
    destruct (m >? threshold (self st)); simpl.
    + destruct (_is_recording (self st)); simpl; split; lia.
    + destruct (_record_buffer (self st) - 1 <=? 0) eqn:Hle; simpl.
      * destruct (_is_recording (self st)); simpl; split; lia.
      * apply Z.leb_gt in Hle. rewrite Hpos by lia. simpl. split; lia.
Qed.

(** X6.  The frames that reach a writer during a run from a fresh
    controller are exactly the frames of the steps at which recording is
    active, in their order and as they were given. *)
Theorem written_frames_are_active_frames (T H : Z) (f0 : Frame)
    (frames : list Frame) (st : State) :
  Fresh T H f0 st ->
  empty f0 = false ->
  Forall (fun f => shape f = shape f0) frames ->
  exists obs st',
    process_frames BGR2GRAY frames st = (Ok obs, st')
    /\ map snd (written (log (world st')))
       = (map snd (written (log (world st)))
          ++ select (map wrote obs) frames)%list.
Proof.
  intros HF Hne Hall.
  pose proof (Fresh_Consistent T H f0 st HF) as Hcons.
  destruct HF as (_ & _ & Hlast & _).
  clear T H.
  revert st f0 Hcons Hlast Hne Hall.
  induction frames as [|frame rest IH]; intros st f0 Hcons Hlast Hne Hall.
  - exists [], st. split; [reflexivity|]. simpl. rewrite app_nil_r. reflexivity.
  - apply Forall_cons_iff in Hall. destruct Hall as [Hshape Hrest].
    destruct (process_frames_step frame rest st f0 Hcons Hlast Hne Hshape)
      as (m & st1 & Hcall & Hspec & Hne1 & Heq).
    pose proof (process_frame_writes st st1 frame _ Hcall) as Hwr.
    destruct Hspec as [_ _ Hlf _ _ _ _ _ _ Hcons1].
    destruct (IH st1 frame Hcons1 Hlf Hne1) as (obs & st2 & Hrun & Hsel).
    { eapply Forall_impl; [|exact Hrest]. simpl. intros f Hf. congruence. }
    rewrite Heq, Hrun. eexists. exists st2. split; [reflexivity|].
    rewrite Hsel, Hwr, map_app, <- app_assoc. f_equal. simpl map.
    simpl select.
    destruct (_record_buffer (self st1) >? 0) eqn:Hg.
    + destruct Hcons1 as (_ & Hrw & Hpos & _).
      rewrite Z.gtb_ltb in Hg. apply Z.ltb_lt in Hg.
      destruct (_writer (self st1)) as [f|] eqn:Hw; [reflexivity|].
      exfalso. apply Hrw; [apply Hpos; exact Hg|reflexivity].
    + destruct (_writer (self st1)); reflexivity.
Qed.

End Sessions.

(** ** Further properties of one call and of the loop *)

Section Calls.

Variable BGR2GRAY : Pixel -> Z.

(** X7.  A detector whose recording flag is set while it holds no writer
    (the state [_cleanup] leaves behind when it interrupts a recording)
    does not record the next motion: [process_frame] reports the motion but
    opens no session and writes no frame, and the flag stays set. *)
Theorem stale_flag_blocks_recording (st : State) (frame : Frame) (m : Z)
    (diff : Gray) :
  _calculate_motion BGR2GRAY frame st = (Ok (m, diff), st) ->
  _is_recording (self st) = true ->
  _writer (self st) = None ->
  threshold (self st) < m ->
  exists st',
    process_frame BGR2GRAY frame st = (Ok true, st')
    /\ sessions_opened (world st') = sessions_opened (world st)
    /\ frames_written (world st') = frames_written (world st)
    /\ _writer (self st') = None
    /\ _is_recording (self st') = true.
Proof.
  intros Hcalc Hr Hw Hm.
  assert (Hgt : (m >? threshold (self st)) = true)
    by (rewrite Z.gtb_ltb; apply Z.ltb_lt; exact Hm).
  unfold process_frame. unfold bind at 1. rewrite Hcalc.
  destruct st as [d w]. simpl in *.
  unfold_methods. unfold_monad. simpl. rewrite Hgt, Hr. simpl.
  rewrite Hw. simpl.
  destruct (show_preview d); simpl; eexists; (split; [reflexivity|]); simpl;
    (split; [count_events; lia|]); (split; [count_events; lia|]);
    split; assumption.
Qed.

Lemma preview_of_result (st st' : State) (frame : Frame) (b : bool) :
  process_frame BGR2GRAY frame st = (Ok b, st') ->
  (show_preview (self st) = false ->
   windows_shown (world st') = windows_shown (world st))
  /\ (show_preview (self st) = true ->
      windows_shown (world st') = (windows_shown (world st) + 2)%nat
      /\ exists earlier,
           log (world st')
           = (earlier
              ++ [EvImshow "Live"
                    (Some (if _record_buffer (self st') >? 0
                           then "REC - Moving" else "Standby")%string);
                  EvImshow "Motion" None])%list).
Proof.
  unfold process_frame. unfold bind at 1. rewrite calculate_motion_estimate.
  destruct (estimate BGR2GRAY (_last_frame (self st)) frame) as [[m diff]|];
    [|discriminate].
  destruct st as [d w]. unfold_methods. unfold_monad. simpl.
  unfold windows_shown.
  process_frame_cases d w Hw Hdir;
    intros Heq; try discriminate; injection Heq as <- <-; simpl in *;
    split; intros Hshow; try discriminate;
    repeat match goal with
           | H : ?c = _ |- context [_add_overlay ?c] => rewrite H
           end;
    simpl;
    first [ solve [rewrite ?count_app, ?count_one; simpl; lia]
          | split;
            [ rewrite ?count_app, ?count_one; simpl; lia
            | try congruence; eexists; rewrite <- app_assoc; reflexivity ] ].
Qed.

(** X8.  Without preview a call shows nothing; with preview it ends by
    showing exactly two windows, "Live" with the label "REC - Moving" when
    the counter is positive and "Standby" otherwise, then "Motion". *)
Theorem preview_windows (st : State) (frame : Frame) (m : Z) (diff : Gray) :
  _calculate_motion BGR2GRAY frame st = (Ok (m, diff), st) ->
  dir_exists (world st) = true ->
  exists b st',
    process_frame BGR2GRAY frame st = (Ok b, st')
    /\ (show_preview (self st) = false ->
        windows_shown (world st') = windows_shown (world st))
    /\ (show_preview (self st) = true ->
        windows_shown (world st') = (windows_shown (world st) + 2)%nat
        /\ exists earlier,
             log (world st')
             = (earlier
                ++ [EvImshow "Live"
                      (Some (if _record_buffer (self st') >? 0
                             then "REC - Moving" else "Standby")%string);
                    EvImshow "Motion" None])%list).
Proof.
  intros Hcalc Hdir.
  destruct (process_frame_returns BGR2GRAY st frame m diff Hcalc Hdir)
    as (st' & Hrun).
  exists (m >? threshold (self st)), st'. split; [exact Hrun|].
  apply (preview_of_result st st' frame _ Hrun).
Qed.

(** One turn of the loop that goes round again has read one frame and
    polled one key. *)
Lemma run_body_counts (st st' : State) :
  run_body BGR2GRAY st = (Ok true, st') ->
  script (world st') = script (world st)
  /\ reads (world st') = S (reads (world st))
  /\ polls (world st') = S (polls (world st)).
Proof.
  unfold run_body. unfold bind at 1. unfold video_read.
  destruct st as [d w]. unfold_monad. simpl.
  destruct (_video d) as [v|]; simpl; [|discriminate].
  destruct (if camera_held w then camera_feed (script w) (reads w) else None)
    as [frame|]; simpl; [|discriminate].
  destruct (process_frame BGR2GRAY frame
              {| self := d; world := set_reads (S (reads w)) w |})
    as [[b|e] st1] eqn:Hp; [|discriminate].
  apply process_frame_leaves_camera in Hp.
  destruct Hp as (Hs & Hr & Hpo & _). simpl in *.
  unfold waitKey. unfold_monad. simpl.
  intros [= _ <-]. simpl. repeat split; congruence.
Qed.

(** X9.  Every turn of the loop of [run] asks the camera for exactly one
    frame and the keyboard for exactly one key: after [n] turns that went
    round again, [n] more frames have been read and [n] more keys
    polled. *)
Theorem one_read_one_poll_per_turn (n : nat) (st st' : State) :
  iterates BGR2GRAY n st st' ->
  script (world st') = script (world st)
  /\ reads (world st') = (reads (world st) + n)%nat
  /\ polls (world st') = (polls (world st) + n)%nat.
Proof.
  induction 1 as [st|n st st1 st2 Hbody _ IH].
  - repeat split; lia.
  - apply run_body_counts in Hbody. destruct Hbody as (Hs & Hr & Hp).
    destruct IH as (Hs' & Hr' & Hp').
    rewrite Hs', Hr', Hp', Hs, Hr, Hp. repeat split; lia.
Qed.

(** X10.  After a frame has been read and processed, the loop stops
    exactly when the low byte of the key code is that of [q] (113): key
    codes that differ from it only in higher bits quit as well, and no
    key, which [waitKey] reports as -1, does not. *)
Theorem quit_on_low_byte (st st' : State) (v : Z) (frame : Frame) (b : bool) :
  _video (self st) = Some v ->
  camera_held (world st) = true ->
  camera_feed (script (world st)) (reads (world st)) = Some frame ->
  run_body BGR2GRAY st = (Ok b, st') ->
  (b = false <-> key_feed (script (world st)) (polls (world st)) mod 256 = 113).
Proof.
  intros Hv Hheld Hfeed.
  unfold run_body. unfold bind at 1. unfold video_read.
  destruct st as [d w]. unfold_monad. simpl in *.
  rewrite Hv. simpl. rewrite Hheld, Hfeed. simpl.
  destruct (process_frame BGR2GRAY frame
              {| self := d; world := set_reads (S (reads w)) w |})
    as [[flag|e] st1] eqn:Hp; [|discriminate].
  apply process_frame_leaves_camera in Hp.
  destruct Hp as (Hs & _ & Hpo & _). simpl in *.
  unfold waitKey. unfold_monad. simpl. rewrite Hs, Hpo.
  intros [= <- _].
  change 255 with (Z.ones 8). rewrite Z.land_ones by lia.
  change (2 ^ 8) with 256.
  destruct (key_feed (script w) (polls w) mod 256 =? 113) eqn:Hk; simpl.
  - apply Z.eqb_eq in Hk. split; [intros _; exact Hk|reflexivity].
  - apply Z.eqb_neq in Hk. split; [discriminate|intros Hq; contradiction].
Qed.

End Calls.

(** ** Further properties of [main] *)

Lemma count_emit (p : Event -> bool) (e : Event) (w : World) :
  count p (log (emit e w)) = (count p (log w) + if p e then 1 else 0)%nat.
Proof. simpl. rewrite count_app, count_one. reflexivity. Qed.

Section Program.

Variable BGR2GRAY : Pixel -> Z.

(** X11.  An output directory that is missing and cannot be created is
    not a case [main] handles: the [OSError] of [os.makedirs] leaves
    [main] uncaught, before the camera is opened and without a line being
    printed, and the process ends with status 1. *)
Theorem directory_failure_is_uncaught (args : Namespace) (w : World)
    (fuel : nat) :
  dir_exists w = false ->
  dir_creatable (script w) = false ->
  main BGR2GRAY args fuel w = Some (Raise OSError, boot args w)
  /\ exit_status (Raise OSError) = 1.
Proof.
  intros Hex Hcr. split; [|reflexivity].
  unfold main, __enter__, boot. unfold_methods. unfold_monad. simpl.
  rewrite Hex. simpl. rewrite Hcr. reflexivity.
Qed.

(** X12.  When the camera opens but its first frame cannot be read,
    [__enter__] raises with the capture device open, and since [__exit__]
    is not run for an exception out of [__enter__], [main] returns 1
    without ever releasing the device. *)
Theorem failed_first_read_keeps_camera (args : Namespace) (w : World)
    (fuel : nat) :
  camera_opens (script w) = true ->
  camera_feed (script w) (reads w) = None ->
  dir_exists w = true \/ dir_creatable (script w) = true ->
  exists final,
    main BGR2GRAY args fuel w = Some (Ok 1, final)
    /\ camera_held (world final) = true
    /\ _video (self final) = Some (camera args)
    /\ count is_capture_release (log (world final))
       = count is_capture_release (log w).
Proof.
  intros Hopens Hfeed Hdir.
  unfold main, __enter__, boot. unfold_methods. unfold_monad. simpl.
  destruct (dir_exists w) eqn:Hex; simpl.
  - rewrite Hopens. simpl. rewrite Hfeed. simpl.
    eexists. split; [reflexivity|]. simpl.
    rewrite ?count_app, ?count_one. simpl. repeat split; try assumption; lia.
  - destruct Hdir as [Hdir|Hdir]; [discriminate|]. rewrite Hdir. simpl.
    rewrite Hopens. simpl. rewrite Hfeed. simpl.
    eexists. split; [reflexivity|]. simpl.
    rewrite ?count_app, ?count_one. simpl. repeat split; try assumption; lia.
Qed.

Lemma run_body_cv_error (st st' : State) :
  run_body BGR2GRAY st = (Raise CvError, st') ->
  exists v, _video (self st') = Some v.
Proof.
  unfold run_body. unfold bind at 1. unfold video_read.
  destruct st as [d w]. unfold_monad. simpl.
  destruct (_video d) as [v|] eqn:Hv; simpl; [|discriminate].
  destruct (if camera_held w then camera_feed (script w) (reads w) else None)
    as [frame|]; simpl; [|discriminate].
  destruct (process_frame BGR2GRAY frame
              {| self := d; world := set_reads (S (reads w)) w |})
    as [[b|e] st1] eqn:Hp.
  - unfold waitKey. unfold_monad. simpl. discriminate.
  - apply process_frame_leaves_camera in Hp. destruct Hp as (_ & _ & _ & _ & Hv').
    simpl in Hv'. intros [= _ <-]. exists v. congruence.
Qed.

(** X13.  A [cv2.error] out of [process_frame] in the middle of the loop
    (a frame that cannot be compared with the one before) is not handled
    by [main], but [__exit__] still runs first: the capture device and
    the writer are released, and only then the exception leaves [main],
    ending the process with status 1. *)
Theorem loop_error_runs_cleanup (args : Namespace) (w : World) (fuel n : nat)
    (st1 st2 st3 : State) :
  __enter__ (boot args w) = (Ok tt, st1) ->
  iterates BGR2GRAY n (banner st1) st2 ->
  run_body BGR2GRAY st2 = (Raise CvError, st3) ->
  (n < fuel)%nat ->
  exists final,
    main BGR2GRAY args fuel w = Some (Raise CvError, final)
    /\ exit_status (Raise CvError) = 1
    /\ log (world final)
       = (log (world st3)
          ++ [EvCaptureRelease]
          ++ match _writer (self st3) with
             | Some f => [EvWriterRelease f] | None => [] end
          ++ [EvDestroyAllWindows])%list
    /\ camera_held (world final) = false
    /\ _writer (self final) = None.
Proof.
  intros Henter Hiter Hbody Hfuel.
  destruct (run_body_cv_error st2 st3 Hbody) as (v & Hv).
  destruct (cleanup_run st3)
    as (final & Hclean & _ & Hw' & _ & Hlog & _ & Hcam).
  rewrite Hv in Hlog, Hcam.
  assert (Hloop : run_loop BGR2GRAY fuel (banner st1)
                  = Some (Raise CvError, st3)).
  { replace fuel with (n + S (fuel - S n))%nat by lia.
    rewrite (run_loop_iterates BGR2GRAY n _ _ Hiter). simpl.
    rewrite Hbody. reflexivity. }
  exists final. split.
  - unfold main. rewrite Henter, run_banner, Hloop.
    unfold bind, __exit__. rewrite Hclean. reflexivity.
  - split; [reflexivity|]. split; [exact Hlog|]. split; assumption.
Qed.

Lemma writer_count_flag (st : State) :
  Consistent st ->
  match _writer (self st) with Some _ => 1%nat | None => 0%nat end
  = one_if (_is_recording (self st)).
Proof.
  intros (_ & Hrw & _). unfold one_if.
  destruct (_writer (self st)) as [f|], (_is_recording (self st));
    try reflexivity.
  - assert (false = true) by (apply Hrw; discriminate). discriminate.
  - exfalso. apply Hrw; reflexivity.
Qed.

(** Whatever [process_frame] does to a consistent, balanced state, the
    state stays consistent and balanced. *)
Lemma process_frame_tidy (st st' : State) (frame : Frame) (r : result bool) :
  Consistent st -> Balanced st ->
  process_frame BGR2GRAY frame st = (r, st') ->
  Consistent st' /\ Balanced st'.
Proof.
  intros Hcons Hbal Hrun.
  destruct (estimate BGR2GRAY (_last_frame (self st)) frame) as [[m diff]|] eqn:He.
  - pose proof (calculate_motion_estimate BGR2GRAY st frame) as Hcalc.
    rewrite He in Hcalc.
    destruct (process_frame_step BGR2GRAY st frame m diff Hcalc Hcons)
      as (st1 & Hstep & Hspec).
    rewrite Hstep in Hrun. injection Hrun as _ <-.
    destruct Hspec as [_ _ _ _ _ Hr1 _ Ho1 Hc1 Hcons1].
    split; [exact Hcons1|].
    unfold Balanced in *.
    rewrite (writer_count_flag st1 Hcons1), Ho1, Hc1, Hr1, Hbal,
      (writer_count_flag st Hcons).
    unfold one_if.
    destruct (m >? threshold (self st)), (_is_recording (self st)),
      (_record_buffer (self st) - 1 <=? 0); simpl; lia.
  - unfold process_frame in Hrun. unfold bind at 1 in Hrun.
    rewrite calculate_motion_estimate, He in Hrun.
    injection Hrun as _ <-. split; assumption.
Qed.

Lemma tidy_emit (d : MotionDetector) (w : World) (e : Event) :
  is_open e = false -> is_release e = false ->
  Consistent {| self := d; world := w |} ->
  Balanced {| self := d; world := w |} ->
  Consistent {| self := d; world := emit e w |}
  /\ Balanced {| self := d; world := emit e w |}.
Proof.
  intros Ho Hr Hcons Hbal. split; [exact Hcons|].
  unfold Balanced, sessions_opened, sessions_closed in *.
  simpl world. rewrite !count_emit, Ho, Hr. simpl in *. lia.
Qed.

Lemma run_body_tidy (st st' : State) (r : result bool) :
  Consistent st -> Balanced st ->
  run_body BGR2GRAY st = (r, st') ->
  Consistent st' /\ Balanced st'.
Proof.
  intros Hcons Hbal.
  unfold run_body. unfold bind at 1. unfold video_read.
  destruct st as [d w]. unfold_monad. simpl.
  destruct (_video d) as [v|]; simpl;
    [|intros [= _ <-]; split; assumption].
  destruct (if camera_held w then camera_feed (script w) (reads w) else None)
    as [frame|]; simpl.
  - destruct (process_frame BGR2GRAY frame
                {| self := d; world := set_reads (S (reads w)) w |})
      as [[b|e] st1] eqn:Hp.
    + apply process_frame_tidy in Hp; [|exact Hcons|exact Hbal].
      unfold waitKey. unfold_monad. simpl. intros [= _ <-].
      destruct st1 as [d1 w1]. exact Hp.
    + apply process_frame_tidy in Hp; [|exact Hcons|exact Hbal].
      intros [= _ <-]. exact Hp.
  - unfold print. unfold_monad. simpl. intros [= _ <-].
    apply (tidy_emit d (set_reads (S (reads w)) w)); try reflexivity;
      assumption.
Qed.

Lemma run_loop_tidy (fuel : nat) :
  forall (st st' : State) (r : result unit),
  Consistent st -> Balanced st ->
  run_loop BGR2GRAY fuel st = Some (r, st') ->
  Consistent st' /\ Balanced st'.
Proof.
  induction fuel as [|fuel IH]; intros st st' r Hcons Hbal; simpl.
  - discriminate.
  - destruct (run_body BGR2GRAY st) as [[[|]|e] st1] eqn:Hbody;
      apply run_body_tidy in Hbody; try assumption;
      destruct Hbody as [Hc1 Hb1].
    + apply IH; assumption.
    + intros [= _ <-]. split; assumption.
    + intros [= _ <-]. split; assumption.
Qed.

Lemma cleanup_settles (st : State) :
  Consistent st -> Balanced st ->
  exists st', _cleanup st = (Ok tt, st') /\ Settled st'.
Proof.
  intros (_ & _ & _ & Hopen) Hbal.
  destruct (cleanup_run st) as (st' & Hrun & _ & Hw' & _ & Hlog & Hopen' & _).
  exists st'. split; [exact Hrun|].
  unfold Settled, Balanced, sessions_opened, sessions_closed in *.
  rewrite Hlog, Hopen', Hopen, !count_app.
  destruct (_video (self st)), (_writer (self st)) as [f|]; simpl;
    rewrite ?String.eqb_refl; repeat split; try assumption;
    unfold count in *; simpl; lia.
Qed.

Lemma handle_settled (e : exn) (st : State) :
  Settled st -> Settled (snd (handle e st)).
Proof.
  intros (Hbal & Hopen & Hw). destruct st as [d w].
  unfold Settled, sessions_opened, sessions_closed in *.
  destruct e; unfold handle, print, print_err; unfold_monad; simpl in *;
    rewrite ?count_app, ?count_one; simpl; repeat split; try assumption; lia.
Qed.

(** X14.  Whichever way [main] ends (a setup failure, a failed read, the
    [q] key, or an exception out of the loop), it leaves nothing open:
    started in a world with no writer open, it ends with as many sessions
    closed as were opened, no writer open and no writer held. *)
Theorem main_closes_every_session (args : Namespace) (w : World) (fuel : nat)
    (r : result Z) (final : State) :
  open_writers w = [] ->
  sessions_opened w = sessions_closed w ->
  main BGR2GRAY args fuel w = Some (r, final) ->
  Settled final.
Proof.
  intros Hopen Hbal. unfold main.
  destruct (__enter__ (boot args w)) as [[[]|e] st1] eqn:Henter.
  - assert (Htidy : Consistent (banner st1) /\ Balanced (banner st1)).
    { revert Henter. unfold __enter__, boot, banner.
      unfold_methods. unfold_monad. simpl.
      destruct (dir_exists w) eqn:Hex; simpl;
        [|destruct (dir_creatable (script w)); simpl; [|discriminate]];
        (destruct (camera_opens (script w)); simpl; [|discriminate]);
        (destruct (camera_feed (script w) (reads w)); simpl; [|discriminate]);
        intros [= <-];
        unfold Consistent, Balanced, sessions_opened, sessions_closed in *;
        simpl; rewrite ?count_app, ?count_one; simpl;
        repeat split; try assumption; try discriminate; try lia;
        intros; exfalso; auto. }
    destruct Htidy as [Hc1 Hb1]. rewrite run_banner.
    destruct (run_loop BGR2GRAY fuel (banner st1)) as [[[[]|e] st2]|] eqn:Hloop;
      [| |discriminate];
      destruct (run_loop_tidy fuel _ _ _ Hc1 Hb1 Hloop) as [Hc2 Hb2].
    + destruct st2 as [d2 w2].
      destruct (tidy_emit d2 w2 (EvStdout "Motion detection stopped")
                  eq_refl eq_refl Hc2 Hb2) as [Hc3 Hb3].
      destruct (cleanup_settles _ Hc3 Hb3) as (st4 & Hclean & Hset).
      change (print "Motion detection stopped" {| self := d2; world := w2 |})
        with (@Ok unit tt,
              {| self := d2;
                 world := emit (EvStdout "Motion detection stopped") w2 |}).
      unfold bind, __exit__. rewrite Hclean.
      intros [= _ <-]. exact Hset.
    + destruct (cleanup_settles _ Hc2 Hb2) as (st4 & Hclean & Hset).
      unfold bind, __exit__. rewrite Hclean.
      intros [= Heq].
      replace final with (snd (handle e st4)) by (rewrite Heq; reflexivity).
      apply (handle_settled e st4 Hset).
  - assert (Hset : Settled st1).
    { revert Henter. unfold __enter__, boot.
      unfold_methods. unfold_monad. simpl.
      destruct (dir_exists w) eqn:Hex; simpl;
        [|destruct (dir_creatable (script w)); simpl];
        try (destruct (camera_opens (script w)); simpl);
        try (destruct (camera_feed (script w) (reads w)); simpl);
        intros Heq; try discriminate; injection Heq as _ <-;
        unfold Settled, sessions_opened, sessions_closed in *;
        simpl; rewrite ?count_app, ?count_one; simpl;
        repeat split; try assumption; lia. }
    intros [= Heq].
    replace final with (snd (handle e st1)) by (rewrite Heq; reflexivity).
    apply (handle_settled e st1 Hset).
Qed.

End Program.

(** ** Further properties of the naming *)

Section NamingMore.

Local Open Scope string_scope.

Lemma substring_whole (b : string) : substring 0 (String.length b) b = b.
Proof. induction b as [|c b IH]; simpl; [reflexivity|]. rewrite IH. reflexivity. Qed.

Lemma substring_skip (a b : string) (m : nat) :
  substring (String.length a) m (a ++ b) = substring 0 m b.
Proof. induction a as [|c a IH]; simpl; [reflexivity|]. exact IH. Qed.

Lemma endswith_append (a b : string) : Py.endswith (a ++ b) b = true.
Proof.
  unfold Py.endswith. rewrite string_length_append.
  replace (String.length a + String.length b - String.length b)%nat
    with (String.length a) by lia.
  rewrite substring_skip, substring_whole, String.eqb_refl.
  replace (String.length b <=? String.length a + String.length b)%nat
    with true by (symmetry; apply Nat.leb_le; lia).
  reflexivity.
Qed.

Lemma append_assoc (a b c : string) : (a ++ b) ++ c = a ++ (b ++ c).
Proof. induction a as [|x a IH]; simpl; [reflexivity|]. rewrite IH. reflexivity. Qed.

Lemma is_avi_scheme_name (i : nat) : is_avi (scheme_name i) = true.
Proof.
  unfold is_avi, scheme_name. rewrite <- append_assoc. apply endswith_append.
Qed.

Lemma append_cancel_r (s : string) :
  forall a b : string, a ++ s = b ++ s -> a = b.
Proof.
  induction a as [|x a IH]; intros [|y b] Heq; simpl in *.
  - reflexivity.
  - apply (f_equal String.length) in Heq. simpl in Heq.
    rewrite string_length_append in Heq. lia.
  - apply (f_equal String.length) in Heq. simpl in Heq.
    rewrite string_length_append in Heq. lia.
  - injection Heq as -> Heq. f_equal. apply IH. exact Heq.
Qed.

Lemma scheme_name_inj (i j : nat) : scheme_name i = scheme_name j -> i = j.
Proof.
  unfold scheme_name. intros Heq.
  assert (Hfmt : Py.format_04d i = Py.format_04d j).
  { apply (append_cancel_r ".avi"). simpl in Heq.
    injection Heq as Heq. exact Heq. }
  pose proof (format_04d_value i) as Hi. rewrite Hfmt, format_04d_value in Hi.
  injection Hi as Hi. symmetry. exact Hi.
Qed.

(** X15.  In a directory whose [.avi] entries all come from the scheme,
    each with an index below their number (as is the case after sessions
    recorded one after the other into a directory without videos), the
    name chosen for the next session is the one of index [k] and belongs to
    no entry of the directory: no recording is overwritten. *)
Theorem next_name_is_fresh (st : State) (k : nat) :
  dir_exists (world st) = true ->
  List.length (filter is_avi (listing (world st))) = k ->
  (forall f, In f (listing (world st)) -> is_avi f = true ->
             exists i, (i < k)%nat /\ f = scheme_name i) ->
  _get_next_filename st
  = (Ok (Py.path_join (output_dir (self st)) (scheme_name k)), st)
  /\ ~ In (scheme_name k) (listing (world st)).
Proof.
  intros Hdir Hk Hall. split.
  - rewrite (get_next_filename_run st Hdir), Hk. reflexivity.
  - intros Hin.
    destruct (Hall _ Hin (is_avi_scheme_name k)) as (i & Hi & Heq).
    apply scheme_name_inj in Heq. lia.
Qed.

(** X16.  Once one of the recordings 0 .. n has been deleted, other than
    the last, the count of videos is [n] again, so the next session is
    given the name of recording [n], which is still in the directory. *)
Theorem deleted_recording_causes_reuse (st : State) (n i : nat) :
  dir_exists (world st) = true ->
  (i < n)%nat ->
  listing (world st) = map scheme_name (seq 0 i ++ seq (S i) (n - i)) ->
  _get_next_filename st
  = (Ok (Py.path_join (output_dir (self st)) (scheme_name n)), st)
  /\ In (scheme_name n) (listing (world st)).
Proof.
  intros Hdir Hi Hl. split.
  - rewrite (get_next_filename_run st Hdir), Hl.
    assert (Hall : forall l, filter is_avi (map scheme_name l)
                             = map scheme_name l).
    { induction l as [|x l IH]; simpl; [reflexivity|].
      rewrite is_avi_scheme_name, IH. reflexivity. }
    rewrite Hall, length_map, length_app, !length_seq.
    replace (i + (n - i))%nat with n by lia. reflexivity.
  - rewrite Hl. apply in_map. apply in_or_app. right.
    apply in_seq. lia.
Qed.

End NamingMore.

(** ** Further properties: configuration, preview, set-up *)

Section Config.

Variable BGR2GRAY : Pixel -> Z.
Hypothesis BGR2GRAY_u8 : forall p, is_u8 (BGR2GRAY p).

Local Abbreviation grayscale := (map (map BGR2GRAY)).

Lemma process_frame_config (st st' : State) (frame : Frame)
    (r : result bool) :
  process_frame BGR2GRAY frame st = (r, st') ->
  camera_id (self st') = camera_id (self st)
  /\ threshold (self st') = threshold (self st)
  /\ record_buffer_frames (self st') = record_buffer_frames (self st)
  /\ output_dir (self st') = output_dir (self st)
  /\ show_preview (self st') = show_preview (self st)
  /\ _frame_size (self st') = _frame_size (self st).
Proof.
  unfold process_frame. unfold bind at 1. rewrite calculate_motion_estimate.
  destruct (estimate BGR2GRAY (_last_frame (self st)) frame) as [[m diff]|].
  - destruct st as [d w]. unfold_methods. unfold_monad. simpl.
    process_frame_cases d w Hw Hdir;
      intros [= <- <-]; simpl; repeat split; congruence.
  - intros [= <- <-]. repeat split; reflexivity.
Qed.

(** X17.  [process_frame] never changes the configuration of the
    detector: camera, threshold, hold-over count, output directory, preview
    flag and frame size are after the call what they were before it,
    whether it returns or raises. *)
Theorem process_frame_keeps_config (st : State) (frame : Frame) :
  let d := self st in
  let d' := self (snd (process_frame BGR2GRAY frame st)) in
  camera_id d' = camera_id d
  /\ threshold d' = threshold d
  /\ record_buffer_frames d' = record_buffer_frames d
  /\ output_dir d' = output_dir d
  /\ show_preview d' = show_preview d
  /\ _frame_size d' = _frame_size d.
Proof.
  cbv zeta.
  destruct (process_frame BGR2GRAY frame st) as [r st'] eqn:Hrun.
  simpl snd. exact (process_frame_config st st' frame r Hrun).
Qed.

Lemma process_frames_inv (frame : Frame) (rest : list Frame) (st st' : State)
    (obs : list Observation) :
  process_frames BGR2GRAY (frame :: rest) st = (Ok obs, st') ->
  exists b st1 o obs',
    process_frame BGR2GRAY frame st = (Ok b, st1)
    /\ process_frames BGR2GRAY rest st1 = (Ok obs', st')
    /\ obs = o :: obs'.
Proof.
  intros Hrun. simpl process_frames in Hrun. unfold bind at 1 in Hrun.
  rewrite calculate_motion_estimate in Hrun.
  destruct (estimate BGR2GRAY (_last_frame (self st)) frame) as [md|];
    [|discriminate].
  unfold bind at 1, get_world at 1 in Hrun. unfold bind at 1 in Hrun.
  destruct (process_frame BGR2GRAY frame st) as [[b|e] st1] eqn:Hcall;
    [|discriminate].
  unfold bind at 1, get_world at 1 in Hrun. unfold bind at 1 in Hrun.
  destruct (process_frames BGR2GRAY rest st1) as [[obs'|e] st2] eqn:Hrest;
    [|discriminate].
  unfold ret in Hrun. injection Hrun as <- <-.
  eexists. exists st1. eexists. exists obs'.
  split; [reflexivity|]. split; [exact Hrest|reflexivity].
Qed.

(** X18.  In headless mode a whole run shows no window: however many
    frames are processed and whatever they contain, no [imshow] call is
    made. *)
Theorem headless_run_shows_nothing (frames : list Frame) :
  forall (st st' : State) (obs : list Observation),
  show_preview (self st) = false ->
  process_frames BGR2GRAY frames st = (Ok obs, st') ->
  windows_shown (world st') = windows_shown (world st).
Proof.
  induction frames as [|frame rest IH]; intros st st' obs Hshow Hrun.
  - simpl in Hrun. unfold ret in Hrun. injection Hrun as _ <-. reflexivity.
  - destruct (process_frames_inv frame rest st st' obs Hrun)
      as (b & st1 & o & obs' & Hcall & Hrest & _).
    destruct (preview_of_result BGR2GRAY st st1 frame b Hcall) as [Hoff _].
    destruct (process_frame_config st st1 frame _ Hcall)
      as (_ & _ & _ & _ & Hp & _).
    rewrite (IH st1 st' obs' ltac:(congruence) Hrest). apply Hoff. exact Hshow.
Qed.

Lemma total_repeat (d : Z) (n : nat) : total (repeat d n) = d * Z.of_nat n.
Proof.
  induction n as [|n IH]; [simpl; lia|].
  simpl repeat. simpl total. rewrite IH, Nat2Z.inj_succ. lia.
Qed.

(** X19.  When every sample of the new frame is brighter, in gray, than
    the same sample of the stored frame by one and the same amount [d],
    the score is [d] times the number of pixels: it grows in proportion
    with the change and with the size of the frame. *)
Theorem uniform_change_scores_per_pixel (st : State) (last frame : Frame)
    (d : Z) :
  _last_frame (self st) = Some last ->
  shape frame = shape last ->
  empty frame = false ->
  255 * Z.of_nat (List.length (pixels frame)) < 2 ^ 64 ->
  0 <= d ->
  Forall (fun xy => fst xy = snd xy + d)
         (sample_pairs (grayscale frame) (grayscale last)) ->
  exists diff,
    _calculate_motion BGR2GRAY frame st
    = (Ok (d * Z.of_nat (List.length (pixels frame)), diff), st).
Proof.
  intros Hlast Hshape Hne Hsize Hd Hall.
  destruct (calculate_motion_returns BGR2GRAY st last frame Hlast Hshape Hne)
    as (diff & Hsub & Hrun).
  destruct (diff_pixels BGR2GRAY BGR2GRAY_u8 frame last diff Hshape Hsub)
    as [Hpx Hlen].
  exists diff. rewrite Hrun. do 3 f_equal.
  assert (Hrep : pixels diff = repeat d (List.length (pixels diff))).
  { rewrite Hpx at 1. rewrite Hpx, length_map.
    revert Hall.
    generalize (sample_pairs (grayscale frame) (grayscale last)).
    induction l as [|[x y] l IH]; intros Hall; simpl; [reflexivity|].
    inversion Hall as [|? ? Hxy Hrest]; subst. simpl in Hxy.
    rewrite Hxy, <- IH by exact Hrest. f_equal. lia. }
  unfold np_sum. rewrite Hrep, total_repeat, Hlen.
  assert (Hd255 : d * Z.of_nat (List.length (pixels frame))
                  <= 255 * Z.of_nat (List.length (pixels frame))).
  { pose proof (gray_pairs_u8 BGR2GRAY BGR2GRAY_u8 frame last) as Hu8.
    destruct (sample_pairs (grayscale frame) (grayscale last))
      as [|[x y] l] eqn:Hp.
    - rewrite Hpx in Hlen. simpl in Hlen. rewrite <- Hlen. simpl. lia.
    - inversion Hall as [|? ? Hxy _]; subst.
      inversion Hu8 as [|? ? Hxy8 _]; subst.
      destruct Hxy8 as [Hx Hy]. unfold is_u8 in Hx, Hy.
      simpl in Hxy, Hx, Hy.
      apply Z.mul_le_mono_nonneg_r; lia. }
  apply uint64_small. split; [|lia].
  apply Z.mul_nonneg_nonneg; lia.
Qed.

End Config.

Section SetUp.

Variable BGR2GRAY : Pixel -> Z.

(** X20.  A set-up that succeeds leaves a controller ready for its first
    frame: the output directory exists (it is created if it was missing),
    the capture device is open, the frame size is the one the camera
    reports, the first frame read is stored as the frame to compare with,
    and nothing is being recorded. *)
Theorem setup_prepares_controller (args : Namespace) (w : World) (f0 : Frame) :
  camera_opens (script w) = true ->
  camera_feed (script w) (reads w) = Some f0 ->
  dir_exists w = true \/ dir_creatable (script w) = true ->
  exists st1,
    __enter__ (boot args w) = (Ok tt, st1)
    /\ dir_exists (world st1) = true
    /\ camera_held (world st1) = true
    /\ _video (self st1) = Some (camera args)
    /\ _frame_size (self st1) = camera_size (script w)
    /\ _last_frame (self st1) = Some f0
    /\ _record_buffer (self st1) = 0
    /\ _is_recording (self st1) = false
    /\ _writer (self st1) = None
    /\ reads (world st1) = S (reads w)
    /\ log (world st1)
       = (log w ++ dir_events args w ++ [EvCaptureOpen (camera args)])%list.
Proof.
  intros Hopens Hfeed Hdir.
  unfold __enter__, boot, dir_events. unfold_methods. unfold_monad. simpl.
  destruct (dir_exists w) eqn:Hex; simpl.
  - rewrite Hopens. simpl. rewrite Hfeed. simpl.
    eexists. split; [reflexivity|]. simpl. repeat split; assumption.
  - destruct Hdir as [Hdir|Hdir]; [discriminate|]. rewrite Hdir. simpl.
    rewrite Hopens. simpl. rewrite Hfeed. simpl.
    eexists. split; [reflexivity|]. simpl. rewrite <- app_assoc.
    repeat split; assumption.
Qed.

(** X21.  However the loop of [run] comes to its end without an
    exception (a failed read or the [q] key), [run] prints its closing
    line, [_cleanup] releases the capture device and the writer of a
    session still open, and [main] returns 0. *)
Theorem loop_end_exits_zero (args : Namespace) (w : World) (fuel n : nat)
    (st1 st2 st3 : State) :
  __enter__ (boot args w) = (Ok tt, st1) ->
  iterates BGR2GRAY n (banner st1) st2 ->
  run_body BGR2GRAY st2 = (Ok false, st3) ->
  (n < fuel)%nat ->
  exists final,
    main BGR2GRAY args fuel w = Some (Ok 0, final)
    /\ log (world final)
       = (log (world st3)
          ++ [EvStdout "Motion detection stopped"]
          ++ match _video (self st3) with
             | Some _ => [EvCaptureRelease] | None => [] end
          ++ match _writer (self st3) with
             | Some f => [EvWriterRelease f] | None => [] end
          ++ [EvDestroyAllWindows])%list
    /\ _video (self final) = None
    /\ _writer (self final) = None.
Proof.
  intros Henter Hiter Hbody Hfuel.
  set (st4 := {| self := self st3;
                 world := emit (EvStdout "Motion detection stopped")
                            (world st3) |}).
  destruct (cleanup_run st4)
    as (final & Hclean & Hv' & Hw' & _ & Hlog & _).
  assert (Hloop : run_loop BGR2GRAY fuel (banner st1) = Some (Ok tt, st3)).
  { replace fuel with (n + S (fuel - S n))%nat by lia.
    rewrite (run_loop_iterates BGR2GRAY n _ _ Hiter). simpl.
    rewrite Hbody. reflexivity. }
  exists final. split.
  - unfold main. rewrite Henter, run_banner, Hloop.
    unfold print, update_world. fold st4.
    unfold bind, __exit__. rewrite Hclean. reflexivity.
  - split; [|split; assumption].
    rewrite Hlog. subst st4. simpl. rewrite <- !app_assoc. reflexivity.
Qed.

End SetUp.

(** ** The further properties at concrete inputs *)

Lemma process_frame_rejects_bad_frame_witness :
  process_frame luma narrow fresh_1000_2 = (Raise CvError, fresh_1000_2).
Proof.
  apply (process_frame_rejects_bad_frame luma fresh_1000_2 narrow).
  right. right. exists dark. split; [reflexivity|discriminate].
Defined.

Lemma score_at_most_255_per_pixel_witness :
  0 <= 2000 <= 255 * Z.of_nat (List.length (pixels bright))
  /\ (255 * Z.of_nat (List.length (pixels bright))
      <= threshold (self (state_on 2040 2 dark [])) ->
      dir_exists (world (state_on 2040 2 dark [])) = true ->
      exists st'',
        process_frame luma bright (state_on 2040 2 dark [])
        = (Ok false, st'')).
Proof.
  apply (score_at_most_255_per_pixel luma luma_u8 (state_on 2040 2 dark [])
           (state_on 2040 2 dark []) bright 2000 [repeat 250 8]).
  reflexivity.
Defined.

Lemma dimming_example : dimming luma bright [bright; dark; dark].
Proof.
  simpl. unfold never_brighter.
  repeat split; repeat constructor; vm_compute; discriminate.
Defined.

Lemma dimming_scene_never_records_witness :
  exists obs st',
    process_frames luma [bright; dark; dark] (state_on 1000 2 bright [])
    = (Ok obs, st')
    /\ Forall (fun o => score o = 0 /\ detected o = false /\ wrote o = false)
              obs
    /\ sessions_opened (world st')
       = sessions_opened (world (state_on 1000 2 bright []))
    /\ frames_written (world st')
       = frames_written (world (state_on 1000 2 bright []))
    /\ _record_buffer (self st') = - Z.of_nat 3.
Proof.
  apply (dimming_scene_never_records luma 1000 2 bright [bright; dark; dark]
           (state_on 1000 2 bright [])).
  - apply state_on_fresh.
  - lia.
  - reflexivity.
  - apply dimming_example.
Defined.

Lemma negative_threshold_records_everything_witness :
  exists obs st',
    process_frames luma [dark; dark] (state_on (-1) 2 dark [])
    = (Ok obs, st')
    /\ Forall (fun o => detected o = true) obs
    /\ (0 < 2 ->
        Forall (fun o => wrote o = true) obs
        /\ sessions_opened (world st')
           = (sessions_opened (world (state_on (-1) 2 dark [])) + 1)%nat
        /\ sessions_closed (world st')
           = sessions_closed (world (state_on (-1) 2 dark []))).
Proof.
  apply (negative_threshold_records_everything luma (-1) 2 dark [dark; dark]
           (state_on (-1) 2 dark [])).
  - apply state_on_fresh.
  - lia.
  - reflexivity.
  - repeat constructor.
Defined.

Lemma sessions_are_episodes_witness :
  exists obs st',
    process_frames luma scenario fresh_1000_2 = (Ok obs, st')
    /\ sessions_opened (world st')
       = (sessions_opened (world fresh_1000_2)
          + rising_edges false (map wrote obs))%nat
    /\ sessions_closed (world st')
       = (sessions_closed (world fresh_1000_2)
          + rising_edges true (map negb (map wrote obs)))%nat.
Proof.
  apply (sessions_are_episodes luma 1000 2 dark scenario fresh_1000_2).
  - apply state_on_fresh.
  - lia.
  - reflexivity.
  - apply same_shape_scenario.
Defined.

Lemma written_frames_are_active_frames_witness :
  exists obs st',
    process_frames luma scenario fresh_1000_2 = (Ok obs, st')
    /\ map snd (written (log (world st')))
       = (map snd (written (log (world fresh_1000_2)))
          ++ select (map wrote obs) scenario)%list.
Proof.
  apply (written_frames_are_active_frames luma 1000 2 dark scenario
           fresh_1000_2).
  - apply state_on_fresh.
  - reflexivity.
  - apply same_shape_scenario.
Defined.

Lemma stale_flag_blocks_recording_witness :
  exists st',
    process_frame luma bright reentered = (Ok true, st')
    /\ sessions_opened (world st') = sessions_opened (world reentered)
    /\ frames_written (world st') = frames_written (world reentered)
    /\ _writer (self st') = None
    /\ _is_recording (self st') = true.
Proof.
  apply (stale_flag_blocks_recording luma reentered bright 2000
           [repeat 250 8]).
  - reflexivity.
  - reflexivity.
  - reflexivity.
  - reflexivity.
Defined.

Lemma preview_windows_witness :
  exists b st',
    process_frame luma bright preview_on = (Ok b, st')
    /\ (show_preview (self preview_on) = false ->
        windows_shown (world st') = windows_shown (world preview_on))
    /\ (show_preview (self preview_on) = true ->
        windows_shown (world st') = (windows_shown (world preview_on) + 2)%nat
        /\ exists earlier,
             log (world st')
             = (earlier
                ++ [EvImshow "Live"
                      (Some (if _record_buffer (self st') >? 0
                             then "REC - Moving" else "Standby")%string);
                    EvImshow "Motion" None])%list).
Proof.
  apply (preview_windows luma preview_on bright 2000 [repeat 250 8]);
    reflexivity.
Defined.

Lemma one_turn_of_failing_world :
  exists st', iterates luma 1 (at_loop quit_args failing_world) st'.
Proof.
  eexists. eapply iterates_S; [vm_compute; reflexivity|apply iterates_O].
Defined.

Lemma one_read_one_poll_per_turn_witness :
  exists st',
    iterates luma 1 (at_loop quit_args failing_world) st'
    /\ reads (world st') = 2%nat
    /\ polls (world st') = 1%nat.
Proof.
  destruct one_turn_of_failing_world as (st' & Hiter).
  exists st'. split; [exact Hiter|].
  destruct (one_read_one_poll_per_turn luma 1 _ st' Hiter) as (_ & Hr & Hp).
  split; [exact Hr|exact Hp].
Defined.

Lemma quit_on_low_byte_witness :
  exists st',
    run_body luma (at_loop quit_args quit_world) = (Ok false, st')
    /\ (false = false <-> 113 mod 256 = 113).
Proof.
  eexists. split.
  - vm_compute. reflexivity.
  - eapply (quit_on_low_byte luma (at_loop quit_args quit_world) _ 0 bright
              false).
    + reflexivity.
    + reflexivity.
    + reflexivity.
    + vm_compute. reflexivity.
Defined.

Lemma directory_failure_is_uncaught_witness :
  main luma quit_args 10 locked_world
  = Some (Raise OSError, boot quit_args locked_world)
  /\ exit_status (Raise OSError) = 1.
Proof.
  apply (directory_failure_is_uncaught luma quit_args locked_world 10);
    reflexivity.
Defined.

Lemma failed_first_read_keeps_camera_witness :
  exists final,
    main luma quit_args 10 blind_world = Some (Ok 1, final)
    /\ camera_held (world final) = true
    /\ _video (self final) = Some 0
    /\ count is_capture_release (log (world final))
       = count is_capture_release (log blind_world).
Proof.
  apply (failed_first_read_keeps_camera luma quit_args blind_world 10).
  - reflexivity.
  - reflexivity.
  - left. reflexivity.
Defined.

Lemma loop_error_runs_cleanup_witness :
  exists final,
    main luma quit_args 10 glitch_world = Some (Raise CvError, final)
    /\ camera_held (world final) = false
    /\ _writer (self final) = None.
Proof.
  edestruct (loop_error_runs_cleanup luma quit_args glitch_world 10 0)
    as (final & Hmain & _ & _ & Hcam & Hw).
  - vm_compute. reflexivity.
  - apply iterates_O.
  - vm_compute. reflexivity.
  - lia.
  - exists final. repeat split; assumption.
Defined.

Lemma main_closes_every_session_witness :
  exists r final,
    main luma quit_args 10 quit_world = Some (r, final) /\ Settled final.
Proof.
  eexists. eexists. split.
  - vm_compute. reflexivity.
  - eapply (main_closes_every_session luma quit_args quit_world 10 (Ok 0)).
    + reflexivity.
    + reflexivity.
    + vm_compute. reflexivity.
Defined.

Lemma next_name_is_fresh_witness :
  let st := state_on 1000 2 dark
              ["recording_0001.avi"; "notes.txt"; "recording_0000.avi"]%string in
  _get_next_filename st
  = (Ok (Py.path_join (output_dir (self st)) (scheme_name 2)), st)
  /\ ~ In (scheme_name 2) (listing (world st)).
Proof.
  apply (next_name_is_fresh
           (state_on 1000 2 dark
              ["recording_0001.avi"; "notes.txt"; "recording_0000.avi"]%string)
           2).
  - reflexivity.
  - reflexivity.
  - simpl. intros f [<-|[<-|[<-|[]]]] Havi.
    + exists 1%nat. split; [lia|reflexivity].
    + discriminate.
    + exists 0%nat. split; [lia|reflexivity].
Defined.

Lemma deleted_recording_causes_reuse_witness :
  let st := state_on 1000 2 dark
              ["recording_0000.avi"; "recording_0002.avi"]%string in
  _get_next_filename st
  = (Ok (Py.path_join (output_dir (self st)) (scheme_name 2)), st)
  /\ In (scheme_name 2) (listing (world st)).
Proof.
  apply (deleted_recording_causes_reuse
           (state_on 1000 2 dark
              ["recording_0000.avi"; "recording_0002.avi"]%string) 2 1).
  - reflexivity.
  - lia.
  - reflexivity.
Defined.

Lemma headless_run_shows_nothing_witness :
  exists obs st',
    process_frames luma scenario fresh_1000_2 = (Ok obs, st')
    /\ windows_shown (world st') = windows_shown (world fresh_1000_2).
Proof.
  eexists. eexists. split.
  - vm_compute. reflexivity.
  - eapply (headless_run_shows_nothing luma scenario fresh_1000_2).
    + reflexivity.
    + vm_compute. reflexivity.
Defined.

Lemma uniform_change_scores_per_pixel_witness :
  exists diff,
    _calculate_motion luma bright fresh_1000_2
    = (Ok (250 * Z.of_nat (List.length (pixels bright)), diff), fresh_1000_2).
Proof.
  apply (uniform_change_scores_per_pixel luma luma_u8 fresh_1000_2 dark bright
           250).
  - reflexivity.
  - reflexivity.
  - reflexivity.
  - reflexivity.
  - lia.
  - repeat constructor.
Defined.

Lemma setup_prepares_controller_witness :
  exists st1,
    __enter__ (boot quit_args failing_world) = (Ok tt, st1)
    /\ dir_exists (world st1) = true
    /\ camera_held (world st1) = true
    /\ _video (self st1) = Some 0
    /\ _frame_size (self st1) = (8, 1)
    /\ _last_frame (self st1) = Some dark
    /\ _record_buffer (self st1) = 0
    /\ _is_recording (self st1) = false
    /\ _writer (self st1) = None
    /\ reads (world st1) = 1%nat
    /\ log (world st1) = [EvMakedirs "out"; EvCaptureOpen 0].
Proof.
  apply (setup_prepares_controller quit_args failing_world dark).
  - reflexivity.
  - reflexivity.
  - right. reflexivity.
Defined.

Lemma loop_end_exits_zero_witness :
  exists final,
    main luma quit_args 10 quit_world = Some (Ok 0, final)
    /\ _video (self final) = None
    /\ _writer (self final) = None.
Proof.
  edestruct (loop_end_exits_zero luma quit_args quit_world 10 0)
    as (final & Hmain & _ & Hv & Hw).
  - vm_compute. reflexivity.
  - apply iterates_O.
  - vm_compute. reflexivity.
  - lia.
  - exists final. repeat split; assumption.
Defined.
